(** * AVOPP: the scoring engine, the ranking endpoint, the completion
    toggle and the weekly summary of the activity API.

    Conventions of the model.
    - A [Date] is its [getTime()] value: milliseconds since the epoch, in [Z].
    - A JavaScript [number] that is a whole quantity (hours, milliseconds,
      the integer column [manualPriority]) is a [Z]; scores are rationals
      ([Q]) with exact arithmetic, compared with [==], [<] and [?=]. The
      code evaluates the same expressions in IEEE doubles, so the
      statements about scores are the formula itself, orders, and
      inequalities with a margin far above the rounding error.
    - The string enums of the schema ([type], [status], [priority]) stay
      strings, so the [default:] arms of the switches are reachable.
    - Nullable columns are [option]s. *)

From Stdlib Require Import ZArith QArith String List Bool Lia Lqa.
From Stdlib Require Import Permutation Sorted.
Import ListNotations.

Local Open Scope Z_scope.

(** ** Data model *)

Record Activity : Type := mkActivity {
  id : string;
  subjectId : string;
  type : string;
  name : string;
  description : option string;
  startAt : option Z;
  dueAt : option Z;
  status : string;
  priority : string;
  manualPriority : option Z;
  createdAt : Z;
  updatedAt : Z;
  completedAt : option Z;
  completedBy : option string
}.

Inductive Color : Type := red | yellow | green | none.

Inductive PrioritySource : Type := auto | manual.

(** [RankedActivity = Activity & { score; color; prioritySource }]:
    [Object.assign({}, a, {...})] copies every column of [a]. *)
Record RankedActivity : Type := mkRanked {
  activity : Activity;
  score : Q;
  color : Color;
  prioritySource : PrioritySource
}.

(** ** Scoring engine *)

Definition computeColorByDue (hoursRemaining : option Z) : Color :=
  match hoursRemaining with
  | None => none
  | Some h =>
      if h <=? 48 then red
      else if (72 <=? h) && (h <=? 120) then yellow
      else if 120 <? h then green
      else none
  end.

Definition computeTypeBase (ty : string) : Q :=
  if (ty =? "examen")%string then 100%Q
  else if (ty =? "entrega")%string || (ty =? "tarea")%string then 70%Q
  else if (ty =? "lectura")%string then 40%Q
  else (* 'clase' and default *) 10%Q.

Definition computeStateAdjust (st : string) : Q :=
  if (st =? "pending")%string then 20%Q
  else if (st =? "in_progress")%string then 10%Q
  else if (st =? "completed")%string then (-100)%Q
  else 0%Q.

Definition millisecondsInHour : Z := 3600000.

(** date-fns [differenceInHours]: the difference in milliseconds over the
    milliseconds of an hour, truncated towards zero. *)
Definition differenceInHours (dateLeft dateRight : Z) : Z :=
  Z.quot (dateLeft - dateRight) millisecondsInHour.

(** The local [hoursRemaining] of [rankActivity]. *)
Definition hoursRemainingOf (a : Activity) (nowUtc : Z) : option Z :=
  match dueAt a with
  | Some due => Some (Z.max 1 (differenceInHours due nowUtc))
  | None => None
  end.

(** [hoursRemaining ? 200 / hoursRemaining : 0]: [null] and [0] are falsy. *)
Definition urgencyOf (hoursRemaining : option Z) : Q :=
  match hoursRemaining with
  | Some h => if h =? 0 then 0%Q else (200 / inject_Z h)%Q
  | None => 0%Q
  end.

Definition autoScoreOf (a : Activity) (nowUtc : Z) : Q :=
  let typeBase := computeTypeBase (type a) in
  let stateAdj := computeStateAdjust (status a) in
  let urgency := urgencyOf (hoursRemainingOf a nowUtc) in
  (typeBase + stateAdj + urgency)%Q.

Definition rankActivity (a : Activity) (nowUtc : Z) : RankedActivity :=
  let hoursRemaining := hoursRemainingOf a nowUtc in
  let autoScore := autoScoreOf a nowUtc in
  let '(score, prioritySource) :=
    match (priority a =? "manual")%string, manualPriority a with
    | true, Some m => (inject_Z m, manual)
    | _, _ => (autoScore, auto)
    end in
  let color := computeColorByDue hoursRemaining in
  {| activity := a; score := score; color := color;
     prioritySource := prioritySource |}.

(** The guard of the manual branch, [a.priority === 'manual' &&
    a.manualPriority != null]. *)
Definition manualHonored (a : Activity) : bool :=
  (priority a =? "manual")%string &&
  match manualPriority a with Some _ => true | None => false end.

(** The urgency term as the specification words it: defined remaining
    hours give [200 / hours], undefined ones give [0]. *)
Definition urgencyTerm (remaining : option Z) : Q :=
  match remaining with
  | Some h => (200 / inject_Z h)%Q
  | None => 0%Q
  end.

(** ** Persistence collaborator

    The activity table is the list of its rows in storage order; [id] is
    the primary key. *)

Definition Store : Type := list Activity.

(** [findMany({ where: { NOT: { type }, subjectId? } })]: the rows that
    satisfy the clause, in storage order. *)
Record RankingWhere : Type := mkRankingWhere {
  whereNotType : string;
  whereSubjectId : option string
}.

Definition matchesWhere (w : RankingWhere) (a : Activity) : bool :=
  negb (type a =? whereNotType w)%string &&
  match whereSubjectId w with
  | Some s => (subjectId a =? s)%string
  | None => true
  end.

Definition findMany (store : Store) (w : RankingWhere) : list Activity :=
  filter (matchesWhere w) store.

Definition findUnique (store : Store) (i : string) : option Activity :=
  find (fun a => (id a =? i)%string) store.

(** [update({ where: { id } , data })]: the row with that key is replaced. *)
Fixpoint updateRow (store : Store) (i : string) (row : Activity) : Store :=
  match store with
  | [] => []
  | a :: rest =>
      if (id a =? i)%string then row :: rest
      else a :: updateRow rest i row
  end.

(** ** Ranking endpoint *)

(** A string is truthy unless it is empty. *)
Definition truthyString (s : string) : bool := negb (s =? "")%string.

(** [where = { NOT: { type: 'clase' } }; if (subjectId) where.subjectId = subjectId] *)
Definition rankingWhere (subjectIdParam : option string) : RankingWhere :=
  {| whereNotType := "clase";
     whereSubjectId :=
       match subjectIdParam with
       | Some s => if truthyString s then Some s else None
       | None => None
       end |}.

(** [a.dueAt?.getTime() ?? 0] *)
Definition dueTime (r : RankedActivity) : Z :=
  match dueAt (activity r) with
  | Some t => t
  | None => 0
  end.

(** A number is truthy unless it is zero. *)
Definition truthyNumber (x : Q) : bool := negb (Qeq_bool x 0).

(** [x || y] on numbers. *)
Definition orNumber (x y : Q) : Q := if truthyNumber x then x else y.

(** The comparator handed to [ranked.sort]. *)
Definition rankingCompare (a b : RankedActivity) : Q :=
  orNumber (score b - score a)%Q
    (orNumber (inject_Z (dueTime a - dueTime b))
       (computeTypeBase (type (activity b))
        - computeTypeBase (type (activity a)))%Q).

(** [Array.prototype.sort(compareFn)]: a stable sort; an element is placed
    before another when the comparator is negative, after it when positive,
    and elements that compare as zero keep their input order. *)
Section ArraySort.
Context {A : Type} (compareFn : A -> A -> Q).

Fixpoint sortInsert (x : A) (l : list A) : list A :=
  match l with
  | [] => [x]
  | y :: l' =>
      if Qle_bool (compareFn x y) 0 then x :: y :: l'
      else y :: sortInsert x l'
  end.

Definition arraySort (l : list A) : list A := fold_right sortInsert [] l.
End ArraySort.

Definition ranking (store : Store) (subjectIdParam : option string)
    (nowUtc : Z) : list RankedActivity :=
  let items := findMany store (rankingWhere subjectIdParam) in
  let ranked := map (fun a => rankActivity a nowUtc) items in
  arraySort rankingCompare ranked.

(** The order the specification describes: higher score first; on equal
    scores the earlier due time first, an absent due date counting as time
    0; on equal due times the higher type base first. *)
Definition rankedBefore (x y : RankedActivity) : Prop :=
  (score y < score x)%Q \/
  ((score x == score y)%Q /\
   (dueTime x < dueTime y \/
    (dueTime x = dueTime y /\
     (computeTypeBase (type (activity y))
      <= computeTypeBase (type (activity x)))%Q))).

(** The filter as the specification reads it: an optional subject id, and
    an activity matches when no id is given or its subject is that id. *)
Definition matchesSubject (subjectIdParam : option string) (a : Activity) : bool :=
  match subjectIdParam with
  | Some s => (subjectId a =? s)%string
  | None => true
  end.

(** The filter the endpoint applies: an empty id counts as no id. *)
Definition effectiveSubject (subjectIdParam : option string) : option string :=
  match subjectIdParam with
  | Some s => if (s =? "")%string then None else Some s
  | None => None
  end.

Definition isClass (a : Activity) : bool := (type a =? "clase")%string.

(** "Among equal scores an activity without due date comes before one with
    a due date", on a result list. *)
Definition nullDueFirstAmongTies (l : list RankedActivity) : Prop :=
  forall i j x y,
    nth_error l i = Some x -> nth_error l j = Some y ->
    (score x == score y)%Q ->
    dueAt (activity x) = None -> dueAt (activity y) <> None ->
    (i < j)%nat.

(** ** Completion toggle *)

Inductive Response (A : Type) : Type :=
| Json (body : A)
| NotFound.
Arguments Json {A} body.
Arguments NotFound {A}.

Record ToggleData : Type := mkToggleData {
  dataStatus : string;
  dataCompletedAt : option Z;
  dataCompletedBy : option string
}.

(** Modelled from the spec: the Prisma schema is not among the sources; the
    last-update timestamp is refreshed on every mutation, every column the
    data does not name is kept. *)
Definition applyData (a : Activity) (d : ToggleData) (now : Z) : Activity :=
  {| id := id a; subjectId := subjectId a; type := type a; name := name a;
     description := description a; startAt := startAt a; dueAt := dueAt a;
     status := dataStatus d; priority := priority a;
     manualPriority := manualPriority a; createdAt := createdAt a;
     updatedAt := now;
     completedAt := dataCompletedAt d; completedBy := dataCompletedBy d |}.

Definition toggleCompleted (store : Store) (i : string) (now : Z)
    : Store * Response Activity :=
  match findUnique store i with
  | None => (store, NotFound)
  | Some current =>
      let nextStatus :=
        if (status current =? "completed")%string then "pending"%string
        else "completed"%string in
      let updateData :=
        if (nextStatus =? "completed")%string
        then {| dataStatus := nextStatus; dataCompletedAt := Some now;
                dataCompletedBy := Some "student"%string |}
        else {| dataStatus := nextStatus; dataCompletedAt := None;
                dataCompletedBy := None |} in
      let updated := applyData current updateData now in
      (updateRow store i updated, Json updated)
  end.

Definition isSet {A : Type} (o : option A) : bool :=
  match o with Some _ => true | None => false end.

(** The invariant of the data model: the two completion columns are set
    exactly when the status is completed. *)
Definition completionConsistent (a : Activity) : Prop :=
  isSet (completedAt a) = (status a =? "completed")%string /\
  isSet (completedBy a) = (status a =? "completed")%string.

(** Two toggles in a row, at the instants [t1] and [t2]. *)
Definition toggleTwice (store : Store) (i : string) (t1 t2 : Z) : Store :=
  fst (toggleCompleted (fst (toggleCompleted store i t1)) i t2).

(** ** Weekly summary

    date-fns works on the local calendar of the server process. The local
    clock is modelled as a fixed offset from UTC, [tzOffset] milliseconds
    (the zone the source names, America/Bogota, is UTC-5 all year), over
    the proleptic calendar in which local day 0 is Thursday 1970-01-01. An
    ISO string stands for the instant it prints. *)

Definition millisecondsInDay : Z := 86400000.

Record DayBucket : Type := mkDayBucket {
  date : Z;
  entregas : Z;
  examenes : Z
}.

(** A [Map] keyed by instants, in insertion order; [set] on a present key
    replaces the value in place. *)
Definition DayMap : Type := list (Z * DayBucket).

Fixpoint mapSet (key : Z) (v : DayBucket) (m : DayMap) : DayMap :=
  match m with
  | [] => [(key, v)]
  | (k, b) :: m' =>
      if k =? key then (key, v) :: m' else (k, b) :: mapSet key v m'
  end.

Fixpoint mapGet (key : Z) (m : DayMap) : option DayBucket :=
  match m with
  | [] => None
  | (k, b) :: m' => if k =? key then Some b else mapGet key m'
  end.

Definition mapValues (m : DayMap) : list DayBucket := map snd m.

Record WeeklySummary : Type := mkWeeklySummary {
  rangeStart : Z;
  rangeEnd : Z;
  days : list DayBucket
}.

Section LocalTime.
Variable tzOffset : Z.

(** The local calendar day of an instant, counted from 1970-01-01. *)
Definition localDay (t : Z) : Z := (t + tzOffset) / millisecondsInDay.

(** The instant at which [ms] milliseconds of local day [d] have passed. *)
Definition localInstant (d ms : Z) : Z := d * millisecondsInDay + ms - tzOffset.

(** [Date.prototype.getDay]: 0 is Sunday. *)
Definition getDay (t : Z) : Z := (localDay t + 4) mod 7.

(** [startOfDay]: [setHours(0, 0, 0, 0)]. *)
Definition startOfDay (t : Z) : Z := localInstant (localDay t) 0.

(** [startOfWeek(date, { weekStartsOn })] *)
Definition startOfWeek (t weekStartsOn : Z) : Z :=
  let day := getDay t in
  let diff := (if day <? weekStartsOn then 7 else 0) + day - weekStartsOn in
  localInstant (localDay t - diff) 0.

(** [endOfWeek(date, { weekStartsOn })]: [setHours(23, 59, 59, 999)]. *)
Definition endOfWeek (t weekStartsOn : Z) : Z :=
  let day := getDay t in
  let diff := (if day <? weekStartsOn then -7 else 0) + 6 - (day - weekStartsOn) in
  localInstant (localDay t + diff) (millisecondsInDay - 1).

(** [where: { dueAt: { gte: weekStart, lte: weekEnd },
              type: { in: ['examen', 'entrega', 'tarea'] } }] *)
Definition matchesWeek (weekStart weekEnd : Z) (a : Activity) : bool :=
  match dueAt a with
  | Some due => (weekStart <=? due) && (due <=? weekEnd)
  | None => false
  end &&
  existsb (fun ty => (type a =? ty)%string) ["examen"; "entrega"; "tarea"]%string.

(** The first loop: [for (d = weekStart; d <= weekEnd; d += 24h)]. The
    fuel bounds the number of iterations; [None] when it runs out. *)
Fixpoint initDays (fuel : nat) (d weekEnd : Z) (byDay : DayMap) : option DayMap :=
  if d <=? weekEnd then
    match fuel with
    | O => None
    | S fuel' =>
        let key := startOfDay d in
        initDays fuel' (d + 24 * 3600 * 1000) weekEnd
          (mapSet key {| date := key; entregas := 0; examenes := 0 |} byDay)
    end
  else Some byDay.

(** The body of the second loop, for one item. The bucket object is the
    one the map holds, so [bucket.examenes += 1] replaces the value under
    its key, in place. *)
Definition countItem (byDay : DayMap) (it : Activity) : DayMap :=
  match dueAt it with
  | None => byDay
  | Some due =>
      let key := startOfDay due in
      match mapGet key byDay with
      | None => byDay
      | Some bucket =>
          if (type it =? "examen")%string
          then mapSet key {| date := date bucket; entregas := entregas bucket;
                             examenes := examenes bucket + 1 |} byDay
          else mapSet key {| date := date bucket;
                             entregas := entregas bucket + 1;
                             examenes := examenes bucket |} byDay
      end
  end.

Definition weeklySummary (fuel : nat) (store : Store) (now : Z)
    : option WeeklySummary :=
  let weekStart := startOfWeek now 1 in
  let weekEnd := endOfWeek now 1 in
  let items := filter (matchesWeek weekStart weekEnd) store in
  match initDays fuel weekStart weekEnd [] with
  | None => None
  | Some byDay0 =>
      let byDay := fold_left countItem items byDay0 in
      Some {| rangeStart := weekStart; rangeEnd := weekEnd;
              days := mapValues byDay |}
  end.

(** The due date of [a] falls on the local day that starts at [dayStart]. *)
Definition isDueOn (dayStart : Z) (a : Activity) : bool :=
  match dueAt a with
  | Some due => startOfDay due =? dayStart
  | None => false
  end.

Definition hasTypeIn (tys : list string) (a : Activity) : bool :=
  existsb (fun ty => (type a =? ty)%string) tys.

(** The number of stored activities of one of the types [tys] that are
    due on the local day that starts at [dayStart]. *)
Definition dueOnDay (tys : list string) (dayStart : Z) (store : Store) : Z :=
  Z.of_nat (List.length
              (filter (fun a => hasTypeIn tys a && isDueOn dayStart a) store)).

End LocalTime.

(** The due date of [a] lies in the 24 hours that begin at [dayStart]. *)
Definition dueWithinDay (dayStart : Z) (a : Activity) : bool :=
  match dueAt a with
  | Some due => (dayStart <=? due) && (due <? dayStart + millisecondsInDay)
  | None => false
  end.

(** The number of stored activities of one of the types [tys] whose due
    date lies in the 24 hours that begin at [dayStart]. *)
Definition countDueWithinDay (tys : list string) (dayStart : Z)
    (store : Store) : Z :=
  Z.of_nat (List.length
              (filter (fun a => hasTypeIn tys a && dueWithinDay dayStart a)
                 store)).

(** ** Sample rows *)

(** The same row with other values in the three columns the automatic
    score reads. *)
Definition withTypeStatusDue (a : Activity) (ty st : string) (due : option Z)
    : Activity :=
  {| id := id a; subjectId := subjectId a; type := ty; name := name a;
     description := description a; startAt := startAt a; dueAt := due;
     status := st; priority := priority a;
     manualPriority := manualPriority a; createdAt := createdAt a;
     updatedAt := updatedAt a;
     completedAt := completedAt a; completedBy := completedBy a |}.

Definition sampleRow (i ty st : string) (due : option Z) (mode : string)
    (manualValue : option Z) : Activity :=
  {| id := i; subjectId := "prog"; type := ty; name := "Parcial 1";
     description := None; startAt := None; dueAt := due;
     status := st; priority := mode; manualPriority := manualValue;
     createdAt := 0; updatedAt := 0;
     completedAt := None; completedBy := None |}.

(** An exam due one hour after instant 0, pending and completed. *)
Definition examPending : Activity :=
  sampleRow "e1" "examen" "pending" (Some millisecondsInHour) "auto" None.

Definition examCompleted : Activity :=
  sampleRow "e2" "examen" "completed" (Some millisecondsInHour) "auto" None.

(** The same exam under a manual priority of 0. *)
Definition examManualZero : Activity :=
  sampleRow "e3" "examen" "pending" (Some millisecondsInHour) "manual" (Some 0).

(** Two rows with manual priority 5: one without due date, one due a
    millisecond before the epoch. *)
Definition undatedRow : Activity :=
  sampleRow "u1" "tarea" "pending" None "manual" (Some 5).

Definition preEpochRow : Activity :=
  sampleRow "u2" "tarea" "pending" (Some (-1)) "manual" (Some 5).

(** Two automatic scores of 120: an undated pending exam, and an
    in_progress exam due 20 hours after instant 0 (110 + 200/20). *)
Definition undatedExam : Activity :=
  sampleRow "t1" "examen" "pending" None "auto" None.

Definition examInTwentyHours : Activity :=
  sampleRow "t2" "examen" "in_progress" (Some (20 * millisecondsInHour))
    "auto" None.

(** Same manual score and same due date as [preEpochRow], but an exam. *)
Definition preEpochExam : Activity :=
  sampleRow "u3" "examen" "pending" (Some (-1)) "manual" (Some 5).

(** An exam due one millisecond short of six hours after instant 0. *)
Definition examInFiveHours : Activity :=
  sampleRow "e5" "examen" "pending"
    (Some (5 * millisecondsInHour + 3599999)) "auto" None.

(** Rows around the Bogota week of Monday 2026-11-02 (UTC-5): homework due
    at Monday 00:00 local, a delivery due Monday noon, an exam due
    Wednesday 23:00, a reading due Thursday noon, and an exam due at 00:00
    of the next Monday. *)
Definition weekRows : list Activity :=
  [ sampleRow "w1" "tarea" "pending" (Some 1793595600000) "auto" None;
    sampleRow "w2" "entrega" "pending" (Some 1793638800000) "auto" None;
    sampleRow "w3" "examen" "pending" (Some 1793851200000) "auto" None;
    sampleRow "w4" "lectura" "pending" (Some 1793898000000) "auto" None;
    sampleRow "w5" "examen" "pending" (Some 1794200400000) "auto" None ].

(** An in_progress reading, with both completion columns empty. *)
Definition readingInProgress : Activity :=
  sampleRow "r1" "lectura" "in_progress" None "auto" None.

(** [n] empty buckets for the consecutive local days that start at [d]. *)
Fixpoint emptyDays (d : Z) (n : nat) : DayMap :=
  match n with
  | O => []
  | S n' =>
      (d, {| date := d; entregas := 0; examenes := 0 |})
      :: emptyDays (d + millisecondsInDay) n'
  end.

(** What the second loop does to the bucket of the day that starts at
    [key], for one item. *)
Definition bumpBucket (tzOffset key : Z) (it : Activity) (b : DayBucket)
    : DayBucket :=
  match dueAt it with
  | None => b
  | Some due =>
      if startOfDay tzOffset due =? key then
        if (type it =? "examen")%string
        then {| date := date b; entregas := entregas b;
                examenes := examenes b + 1 |}
        else {| date := date b; entregas := entregas b + 1;
                examenes := examenes b |}
      else b
  end.

(** A delivery due in the middle of the first local day after the epoch. *)
Definition deliveryRow : Activity :=
  sampleRow "d1" "entrega" "pending" (Some (millisecondsInDay + 5)) "auto" None.

(** A class with a manual priority. *)
Definition classRow : Activity :=
  sampleRow "c1" "clase" "pending" None "manual" (Some 900).

(** ** Activity lookup and listing *)

(** [GET /api/activities/:id] *)
Definition getActivity (store : Store) (i : string) : Response Activity :=
  match findUnique store i with
  | Some item => Json item
  | None => NotFound
  end.

(** The [where] of [GET /api/activities]: each truthy query parameter adds
    an equality on its column. *)
Record ListWhere : Type := mkListWhere {
  listSubjectId : option string;
  listType : option string;
  listStatus : option string
}.

Definition truthyParam (p : option string) : option string :=
  match p with
  | Some s => if truthyString s then Some s else None
  | None => None
  end.

Definition listWhere (subjectIdParam typeParam statusParam : option string)
    : ListWhere :=
  {| listSubjectId := truthyParam subjectIdParam;
     listType := truthyParam typeParam;
     listStatus := truthyParam statusParam |}.

Definition equalsIfSet (cond : option string) (v : string) : bool :=
  match cond with
  | Some s => (v =? s)%string
  | None => true
  end.

Definition matchesListWhere (w : ListWhere) (a : Activity) : bool :=
  equalsIfSet (listSubjectId w) (subjectId a) &&
  equalsIfSet (listType w) (type a) &&
  equalsIfSet (listStatus w) (status a).

(** The order of a nullable DATETIME column, ascending: SQLite puts NULL
    before every value. *)
Definition compareNullsFirst (x y : option Z) : Q :=
  match x, y with
  | None, None => 0%Q
  | None, Some _ => (-1)%Q
  | Some _, None => 1%Q
  | Some s, Some t => inject_Z (s - t)
  end.

(** [orderBy: [{ dueAt: 'asc' }, { createdAt: 'desc' }]] *)
Definition listCompare (a b : Activity) : Q :=
  orNumber (compareNullsFirst (dueAt a) (dueAt b))
    (inject_Z (createdAt b - createdAt a)).

(** Modelled from the spec: the Prisma schema is not among the sources; its
    two enums hold the types and the statuses the data model lists. *)
Definition activityTypes : list string :=
  ["clase"; "entrega"; "tarea"; "lectura"; "examen"]%string.

Definition activityStatuses : list string :=
  ["pending"; "in_progress"; "completed"]%string.

(** The client checks a condition on an enum column before it queries: a
    value outside the enum makes the call reject. *)
Definition enumAccepts (values : list string) (cond : option string) : bool :=
  match cond with
  | Some s => existsb (String.eqb s) values
  | None => true
  end.

(** [GET /api/activities]. When [findMany] rejects, the handler, which has
    no catch, answers no list: [None]. Otherwise the store orders the rows;
    rows the order does not separate are kept in storage order. *)
Definition listActivities (store : Store)
    (subjectIdParam typeParam statusParam : option string)
    : option (list Activity) :=
  let clause := listWhere subjectIdParam typeParam statusParam in
  if enumAccepts activityTypes (listType clause) &&
     enumAccepts activityStatuses (listStatus clause)
  then Some (arraySort listCompare (filter (matchesListWhere clause) store))
  else None.

(** A query parameter on an enum column is acceptable when it is absent,
    empty, or one of the enum's values. *)
Definition paramInEnum (values : list string) (p : option string) : Prop :=
  match p with
  | Some s => s = ""%string \/ In s values
  | None => True
  end.

(** The filter of the listing read as a predicate: an absent or empty
    parameter constrains nothing. *)
Definition paramAllows (p : option string) (v : string) : bool :=
  match p with
  | Some s => (s =? "")%string || (v =? s)%string
  | None => true
  end.

(** ** Day panel *)

Record DayPanel : Type := mkDayPanel {
  panelDate : Z;
  classes : list Activity;
  activities : list Activity
}.

(** [{ gte: dayStart, lte: dayEnd }] on a nullable column. *)
Definition withinRange (lo hi : Z) (o : option Z) : bool :=
  match o with
  | Some t => (lo <=? t) && (t <=? hi)
  | None => false
  end.

Section DayPanelModel.
Variable tzOffset : Z.

(** [endOfDay]: [setHours(23, 59, 59, 999)]. *)
Definition endOfDay (t : Z) : Z :=
  localInstant tzOffset (localDay tzOffset t) (millisecondsInDay - 1).

(** [GET /api/day] *)
Definition dayPanel (store : Store) (now : Z) : DayPanel :=
  let dayStart := startOfDay tzOffset now in
  let dayEnd := endOfDay now in
  let classesToday :=
    arraySort (fun a b => compareNullsFirst (startAt a) (startAt b))
      (filter (fun a => (type a =? "clase")%string &&
                        withinRange dayStart dayEnd (startAt a)) store) in
  let dueToday :=
    arraySort (fun a b => compareNullsFirst (dueAt a) (dueAt b))
      (filter (fun a => negb (type a =? "clase")%string &&
                        withinRange dayStart dayEnd (dueAt a)) store) in
  {| panelDate := now; classes := classesToday; activities := dueToday |}.

(** The instant [o] falls on the local day of [now]. *)
Definition onDayOf (now : Z) (o : option Z) : bool :=
  match o with
  | Some t => startOfDay tzOffset t =? startOfDay tzOffset now
  | None => false
  end.

End DayPanelModel.

(** ** Derived notions used in the statements *)

(** The color as a function of the milliseconds left to the due date. *)
Definition colorOfDelay (delay : Z) : Color :=
  if delay <? 49 * millisecondsInHour then red
  else if delay <? 72 * millisecondsInHour then none
  else if delay <? 121 * millisecondsInHour then yellow
  else green.

(** Two ranked rows the comparator does not separate. *)
Definition tiesWith (x y : RankedActivity) : bool :=
  Qeq_bool (rankingCompare x y) 0.

(** The items counted by a list of buckets. *)
Definition bucketTotal (l : list DayBucket) : Z :=
  fold_right (fun b acc => examenes b + entregas b + acc) 0 l.

(** [x] is nowhere after [y] in the order ascending by [key], nulls first. *)
Definition ascendingBy (key : Activity -> option Z) (x y : Activity) : Prop :=
  match key x, key y with
  | None, _ => True
  | Some _, None => False
  | Some s, Some t => s <= t
  end.

(** More sample rows: a class that starts two hours after instant 0, an
    exam completed before, due within the hour, and a pending exam due in
    three hours. *)
Definition classAtTwo : Activity :=
  {| id := "c2"; subjectId := "cal1"; type := "clase"; name := "Clase magistral";
     description := None; startAt := Some (2 * millisecondsInHour);
     dueAt := None; status := "pending"; priority := "auto";
     manualPriority := None; createdAt := 0; updatedAt := 0;
     completedAt := None; completedBy := None |}.

Definition examInThreeHours : Activity :=
  sampleRow "e4" "examen" "pending" (Some (3 * millisecondsInHour)) "auto" None.

Definition manualTop : Activity :=
  sampleRow "m1" "lectura" "completed" None "manual" (Some 321).

(** ** The scoring engine *)

Lemma hoursRemainingOf_ge_1 (a : Activity) (nowUtc h : Z) :
  hoursRemainingOf a nowUtc = Some h -> 1 <= h.
Proof.
  unfold hoursRemainingOf. destruct (dueAt a); [|discriminate].
  intros [= <-]. apply Z.le_max_l.
Qed.

Lemma urgencyOf_defined (h : Z) :
  1 <= h -> urgencyOf (Some h) = (200 / inject_Z h)%Q.
Proof.
  intros Hh. unfold urgencyOf.
  destruct (Z.eqb_spec h 0); [lia | reflexivity].
Qed.

Lemma urgencyOf_urgencyTerm (a : Activity) (nowUtc : Z) :
  urgencyOf (hoursRemainingOf a nowUtc) = urgencyTerm (hoursRemainingOf a nowUtc).
Proof.
  destruct (hoursRemainingOf a nowUtc) as [h|] eqn:E; [|reflexivity].
  apply urgencyOf_defined. eapply hoursRemainingOf_ge_1; eassumption.
Qed.

Lemma urgency_bounds (h : Z) :
  1 <= h -> (0 < 200 / inject_Z h /\ 200 / inject_Z h <= 200)%Q.
Proof.
  intros Hh.
  assert (Hpos : (0 < inject_Z h)%Q).
  { unfold Qlt; simpl; lia. }
  split.
  - apply Qlt_shift_div_l; [exact Hpos | ].
    rewrite Qmult_0_l. reflexivity.
  - apply Qle_shift_div_r; [exact Hpos | ].
    unfold Qle, Qmult, inject_Z; cbn [Qnum Qden]. lia.
Qed.

Lemma rankActivity_auto (a : Activity) (nowUtc : Z) :
  manualHonored a = false ->
  score (rankActivity a nowUtc) = autoScoreOf a nowUtc /\
  prioritySource (rankActivity a nowUtc) = auto.
Proof.
  unfold manualHonored, rankActivity. intros H.
  destruct (priority a =? "manual")%string; destruct (manualPriority a);
    simpl in *; try discriminate; split; reflexivity.
Qed.

Lemma rankActivity_manual (a : Activity) (nowUtc m : Z) :
  priority a = "manual"%string -> manualPriority a = Some m ->
  score (rankActivity a nowUtc) = inject_Z m /\
  prioritySource (rankActivity a nowUtc) = manual.
Proof.
  unfold rankActivity. intros -> ->. split; reflexivity.
Qed.

Lemma computeStateAdjust_other (st : string) :
  st <> "pending"%string -> st <> "in_progress"%string ->
  st <> "completed"%string -> computeStateAdjust st = 0%Q.
Proof.
  intros H1 H2 H3. unfold computeStateAdjust.
  apply String.eqb_neq in H1, H2, H3. rewrite H1, H2, H3. reflexivity.
Qed.

(** C1. When the manual override is not honoured, the score is the type
    base plus the status adjustment plus the urgency term (200 over the
    remaining hours when they are defined, 0 otherwise); the type base is
    100 for an exam, 70 for a delivery and for homework, 40 for a reading
    and 10 for a class; the adjustment is +20 for pending, +10 for
    in_progress, -100 for completed and 0 for any other status. *)
Theorem rankActivity_auto_score (a : Activity) (nowUtc : Z) :
  manualHonored a = false ->
  (score (rankActivity a nowUtc) ==
     computeTypeBase (type a) + computeStateAdjust (status a)
     + urgencyTerm (hoursRemainingOf a nowUtc))%Q /\
  (computeTypeBase "examen" = 100%Q /\ computeTypeBase "entrega" = 70%Q /\
   computeTypeBase "tarea" = 70%Q /\ computeTypeBase "lectura" = 40%Q /\
   computeTypeBase "clase" = 10%Q) /\
  (computeStateAdjust "pending" = 20%Q /\
   computeStateAdjust "in_progress" = 10%Q /\
   computeStateAdjust "completed" = (-100)%Q /\
   forall st, st <> "pending"%string -> st <> "in_progress"%string ->
              st <> "completed"%string -> computeStateAdjust st = 0%Q).
Proof.
  intros Hauto. split; [| split].
  - destruct (rankActivity_auto a nowUtc Hauto) as [-> _].
    unfold autoScoreOf. rewrite urgencyOf_urgencyTerm. reflexivity.
  - repeat split; reflexivity.
  - repeat split; try reflexivity. exact computeStateAdjust_other.
Qed.

Lemma rankActivity_auto_score_witness :
  manualHonored examPending = false /\
  (score (rankActivity examPending 0) ==
     computeTypeBase "examen" + computeStateAdjust "pending"
     + urgencyTerm (Some 1%Z))%Q.
Proof.
  split; [reflexivity | ].
  exact (proj1 (rankActivity_auto_score examPending 0 eq_refl)).
Defined.

(** C2. With priority mode manual and a non-null manualPriority the score
    is manualPriority itself and the source is manual, whatever the type,
    the status, the due date and the instant are; in every other case the
    score is the automatic score and the source is auto. *)
Theorem rankActivity_manual_override (a : Activity) (nowUtc : Z) :
  (forall m, priority a = "manual"%string -> manualPriority a = Some m ->
     score (rankActivity a nowUtc) = inject_Z m /\
     prioritySource (rankActivity a nowUtc) = manual /\
     forall ty st due now',
       score (rankActivity (withTypeStatusDue a ty st due) now') =
       score (rankActivity a nowUtc)) /\
  (~ (priority a = "manual"%string /\ manualPriority a <> None) ->
     score (rankActivity a nowUtc) = autoScoreOf a nowUtc /\
     prioritySource (rankActivity a nowUtc) = auto).
Proof.
  split.
  - intros m Hp Hm.
    destruct (rankActivity_manual a nowUtc m Hp Hm) as [Hs Hsrc].
    split; [exact Hs | split; [exact Hsrc | ]].
    intros ty st due now'. rewrite Hs.
    apply (rankActivity_manual (withTypeStatusDue a ty st due) now' m);
      assumption.
  - intros Hnot. apply rankActivity_auto. unfold manualHonored.
    destruct (String.eqb_spec (priority a) "manual"); [|reflexivity].
    destruct (manualPriority a); [|reflexivity].
    exfalso. apply Hnot. split; [assumption | discriminate].
Qed.

Lemma rankActivity_manual_override_witness :
  score (rankActivity examManualZero 0) = inject_Z 0 /\
  prioritySource (rankActivity examManualZero 0) = manual /\
  score (rankActivity
           (withTypeStatusDue examManualZero "lectura" "completed" None) 7) =
  score (rankActivity examManualZero 0).
Proof.
  destruct (proj1 (rankActivity_manual_override examManualZero 0) 0
              eq_refl eq_refl) as [Hs [Hsrc Hind]].
  split; [exact Hs | split; [exact Hsrc | exact (Hind _ _ _ _)]].
Defined.

(** C3. The color is a function of the remaining hours alone: none without
    due date, red up to 48 hours, yellow from 72 to 120 hours, green above
    120 hours, none strictly between 48 and 72 hours. *)
Theorem rankActivity_color (a : Activity) (nowUtc : Z) :
  (forall b now',
     hoursRemainingOf b now' = hoursRemainingOf a nowUtc ->
     color (rankActivity b now') = color (rankActivity a nowUtc)) /\
  (dueAt a = None -> color (rankActivity a nowUtc) = none) /\
  (forall h, hoursRemainingOf a nowUtc = Some h ->
     (h <= 48 -> color (rankActivity a nowUtc) = red) /\
     (72 <= h <= 120 -> color (rankActivity a nowUtc) = yellow) /\
     (120 < h -> color (rankActivity a nowUtc) = green) /\
     (48 < h < 72 -> color (rankActivity a nowUtc) = none)).
Proof.
  assert (Hcol : forall x t,
            color (rankActivity x t) = computeColorByDue (hoursRemainingOf x t)).
  { intros x t. unfold rankActivity.
    destruct (priority x =? "manual")%string; destruct (manualPriority x);
      reflexivity. }
  split; [| split].
  - intros b now' Heq. rewrite !Hcol, Heq. reflexivity.
  - intros Hdue. rewrite Hcol. unfold hoursRemainingOf. rewrite Hdue.
    reflexivity.
  - intros h Hh. rewrite Hcol, Hh. unfold computeColorByDue.
    destruct (Z.leb_spec h 48); destruct (Z.leb_spec 72 h);
      destruct (Z.leb_spec h 120); destruct (Z.ltb_spec 120 h);
      cbn [andb]; repeat split; intros; try reflexivity; lia.
Qed.

Lemma rankActivity_color_witness :
  color (rankActivity examPending 0) = red /\
  color (rankActivity
           (withTypeStatusDue examPending "tarea" "pending"
              (Some (100 * millisecondsInHour))) 0) = yellow.
Proof.
  split.
  - apply (proj1 (proj2 (proj2 (rankActivity_color examPending 0)) 1 eq_refl)).
    discriminate.
  - apply (proj1 (proj2 (proj2 (proj2 (rankActivity_color
             (withTypeStatusDue examPending "tarea" "pending"
                (Some (100 * millisecondsInHour))) 0)) 100 eq_refl))).
    split; discriminate.
Defined.

Lemma hoursRemaining_of_delay (due nowUtc : Z) :
  (due - nowUtc < 2 * millisecondsInHour ->
   Z.max 1 (differenceInHours due nowUtc) = 1) /\
  (millisecondsInHour <= due - nowUtc ->
   Z.max 1 (differenceInHours due nowUtc)
   = (due - nowUtc) / millisecondsInHour).
Proof.
  unfold differenceInHours, millisecondsInHour. split.
  - intros Hlt. destruct (Z.lt_ge_cases (due - nowUtc) 0) as [Hneg | Hpos].
    + assert (Z.quot (due - nowUtc) 3600000 <= 0)
        by (apply Z.quot_le_upper_bound; lia).
      lia.
    + rewrite Z.quot_div_nonneg by lia.
      Z.div_mod_to_equations. lia.
  - intros Hge. rewrite Z.quot_div_nonneg by lia.
    Z.div_mod_to_equations. lia.
Qed.

(** C4. With a due date the remaining hours are the maximum of 1 and the
    whole hours from now to the due date, the hours being counted by
    truncation: a date at least [h] and less than [h + 1] hours ahead, for
    [h] >= 1, has [h] remaining hours; a difference of exactly one hour,
    any difference below two hours and an overdue date (zero or negative
    hours) all give 1. The divisor of the urgency term is therefore at
    least 1, never zero, and the term lies in (0, 200]. Without due date
    the urgency term is 0. *)
Theorem hoursRemaining_floor (a : Activity) (nowUtc : Z) :
  (forall due, dueAt a = Some due ->
     hoursRemainingOf a nowUtc = Some (Z.max 1 (differenceInHours due nowUtc)) /\
     (due - nowUtc = millisecondsInHour -> hoursRemainingOf a nowUtc = Some 1) /\
     (differenceInHours due nowUtc <= 0 -> hoursRemainingOf a nowUtc = Some 1) /\
     (due <= nowUtc -> hoursRemainingOf a nowUtc = Some 1) /\
     (due - nowUtc < 2 * millisecondsInHour ->
        hoursRemainingOf a nowUtc = Some 1) /\
     (forall h, 1 <= h ->
        h * millisecondsInHour <= due - nowUtc < (h + 1) * millisecondsInHour ->
        hoursRemainingOf a nowUtc = Some h) /\
     exists h, hoursRemainingOf a nowUtc = Some h /\ 1 <= h /\
               ~ (inject_Z h == 0)%Q /\
               urgencyOf (hoursRemainingOf a nowUtc) = (200 / inject_Z h)%Q /\
               (0 < urgencyOf (hoursRemainingOf a nowUtc))%Q /\
               (urgencyOf (hoursRemainingOf a nowUtc) <= 200)%Q) /\
  (dueAt a = None ->
     hoursRemainingOf a nowUtc = None /\
     urgencyOf (hoursRemainingOf a nowUtc) = 0%Q).
Proof.
  split.
  - intros due Hdue.
    assert (Hrem : hoursRemainingOf a nowUtc
                   = Some (Z.max 1 (differenceInHours due nowUtc))).
    { unfold hoursRemainingOf. rewrite Hdue. reflexivity. }
    destruct (hoursRemaining_of_delay due nowUtc) as [Hsmall Hlarge].
    split; [exact Hrem | ]. rewrite Hrem.
    split; [| split; [| split; [| split; [| split]]]].
    + intros Hone. unfold differenceInHours. rewrite Hone. reflexivity.
    + intros Hle. f_equal. lia.
    + intros Hle. f_equal. unfold differenceInHours, millisecondsInHour.
      assert (Z.quot (due - nowUtc) 3600000 <= 0).
      { apply Z.quot_le_upper_bound; lia. }
      lia.
    + intros Hlt. f_equal. apply Hsmall. exact Hlt.
    + intros h Hh Hwindow. f_equal.
      rewrite Hlarge by (unfold millisecondsInHour in *; lia).
      unfold millisecondsInHour in *. Z.div_mod_to_equations. lia.
    + exists (Z.max 1 (differenceInHours due nowUtc)).
      assert (Hge : 1 <= Z.max 1 (differenceInHours due nowUtc))
        by apply Z.le_max_l.
      rewrite (urgencyOf_defined _ Hge).
      destruct (urgency_bounds _ Hge) as [Hpos Hle].
      split; [reflexivity | split; [exact Hge | split]].
      * unfold Qeq, inject_Z; cbn [Qnum Qden]. lia.
      * split; [reflexivity | split; assumption].
  - intros Hdue. unfold hoursRemainingOf. rewrite Hdue. split; reflexivity.
Qed.

Lemma hoursRemaining_floor_witness :
  hoursRemainingOf examPending 0 = Some 1 /\
  hoursRemainingOf examPending (7 * millisecondsInHour) = Some 1 /\
  hoursRemainingOf examInFiveHours 0 = Some 5 /\
  hoursRemainingOf examInFiveHours (-95 * millisecondsInHour) = Some 100.
Proof.
  split; [| split; [| split]].
  - exact (proj1 (proj2 (proj1 (hoursRemaining_floor examPending 0)
                          millisecondsInHour eq_refl)) eq_refl).
  - apply (proj1 (proj2 (proj2 (proj1 (hoursRemaining_floor examPending
             (7 * millisecondsInHour)) millisecondsInHour eq_refl)))).
    discriminate.
  - apply (proj1 (proj2 (proj2 (proj2 (proj2 (proj2 (proj1
             (hoursRemaining_floor examInFiveHours 0)
             (5 * millisecondsInHour + 3599999) eq_refl))))))).
    + discriminate.
    + split; [discriminate | reflexivity].
  - apply (proj1 (proj2 (proj2 (proj2 (proj2 (proj2 (proj1
             (hoursRemaining_floor examInFiveHours (-95 * millisecondsInHour))
             (5 * millisecondsInHour + 3599999) eq_refl))))))).
    + discriminate.
    + split; [discriminate | reflexivity].
Defined.

Lemma autoScoreOf_unfold (a : Activity) (nowUtc : Z) :
  autoScoreOf a nowUtc =
  (computeTypeBase (type a) + computeStateAdjust (status a)
   + urgencyOf (hoursRemainingOf a nowUtc))%Q.
Proof. reflexivity. Qed.

Lemma hoursRemainingOf_same_due (a b : Activity) (nowUtc : Z) :
  dueAt a = dueAt b -> hoursRemainingOf a nowUtc = hoursRemainingOf b nowUtc.
Proof. unfold hoursRemainingOf. intros ->. reflexivity. Qed.

Lemma auto_mode_not_honored (a : Activity) :
  priority a = "auto"%string -> manualHonored a = false.
Proof. unfold manualHonored. intros ->. reflexivity. Qed.

(** C7. In auto mode, for any type, any shared due date (or none) and any
    instant, a completed activity scores strictly below a pending or
    in_progress activity of the same type; an exam due in one hour scores
    320 when pending and 200 when completed. *)
Theorem completed_scores_below_active :
  (forall (c p : Activity) (nowUtc : Z),
     type c = type p -> dueAt c = dueAt p ->
     priority c = "auto"%string -> priority p = "auto"%string ->
     status c = "completed"%string ->
     status p = "pending"%string \/ status p = "in_progress"%string ->
     (score (rankActivity c nowUtc) < score (rankActivity p nowUtc))%Q) /\
  (forall (a : Activity) (nowUtc : Z),
     type a = "examen"%string -> priority a = "auto"%string ->
     dueAt a = Some (nowUtc + millisecondsInHour) ->
     (status a = "pending"%string ->
        (score (rankActivity a nowUtc) == 320)%Q) /\
     (status a = "completed"%string ->
        (score (rankActivity a nowUtc) == 200)%Q)).
Proof.
  split.
  - intros c p nowUtc Hty Hdue Hc Hp Hsc Hsp.
    destruct (rankActivity_auto c nowUtc (auto_mode_not_honored c Hc)) as [-> _].
    destruct (rankActivity_auto p nowUtc (auto_mode_not_honored p Hp)) as [-> _].
    rewrite !autoScoreOf_unfold.
    rewrite (hoursRemainingOf_same_due c p nowUtc Hdue), Hty, Hsc.
    change (computeStateAdjust "completed") with (-100)%Q.
    destruct Hsp as [-> | ->].
    + change (computeStateAdjust "pending") with 20%Q. lra.
    + change (computeStateAdjust "in_progress") with 10%Q. lra.
  - intros a nowUtc Hty Hmode Hdue.
    destruct (rankActivity_auto a nowUtc (auto_mode_not_honored a Hmode))
      as [-> _].
    rewrite autoScoreOf_unfold. unfold hoursRemainingOf, differenceInHours.
    rewrite Hdue, Hty.
    replace (nowUtc + millisecondsInHour - nowUtc) with millisecondsInHour
      by lia.
    split; intros ->; reflexivity.
Qed.

Lemma completed_scores_below_active_witness :
  (score (rankActivity examCompleted 0) < score (rankActivity examPending 0))%Q /\
  (score (rankActivity examPending 0) == 320)%Q /\
  (score (rankActivity examCompleted 0) == 200)%Q.
Proof.
  split; [| split].
  - apply (proj1 completed_scores_below_active examCompleted examPending 0);
      first [reflexivity | left; reflexivity].
  - exact (proj1 (proj2 completed_scores_below_active examPending 0
                    eq_refl eq_refl eq_refl) eq_refl).
  - exact (proj2 (proj2 completed_scores_below_active examCompleted 0
                    eq_refl eq_refl eq_refl) eq_refl).
Defined.

(** C10. A manual priority of exactly 0 is honoured: the guard tests for
    null, so the score is 0 and the source is manual, not the automatic
    score. *)
Theorem manual_zero_is_honored (a : Activity) (nowUtc : Z) :
  priority a = "manual"%string -> manualPriority a = Some 0 ->
  manualHonored a = true /\
  score (rankActivity a nowUtc) = 0%Q /\
  prioritySource (rankActivity a nowUtc) = manual.
Proof.
  intros Hp Hm.
  destruct (rankActivity_manual a nowUtc 0 Hp Hm) as [Hs Hsrc].
  split; [| split; [exact Hs | exact Hsrc]].
  unfold manualHonored. rewrite Hp, Hm. reflexivity.
Qed.

Lemma manual_zero_is_honored_witness :
  (priority examManualZero = "manual"%string /\
   manualPriority examManualZero = Some 0 /\
   (autoScoreOf examManualZero 0 == 320)%Q) /\
  manualHonored examManualZero = true /\
  score (rankActivity examManualZero 0) = 0%Q /\
  prioritySource (rankActivity examManualZero 0) = manual.
Proof.
  split.
  - split; [reflexivity | split; reflexivity].
  - exact (manual_zero_is_honored examManualZero 0 eq_refl eq_refl).
Defined.

(** ** The ranking endpoint *)

Section ArraySortFacts.
Context {A : Type} (compareFn : A -> A -> Q) (before : A -> A -> Prop).
Hypothesis before_iff :
  forall x y, Qle_bool (compareFn x y) 0 = true <-> before x y.
Hypothesis before_total : forall x y, before x y \/ before y x.
Hypothesis before_trans : forall x y z, before x y -> before y z -> before x z.

Lemma sortInsert_perm (x : A) (l : list A) :
  Permutation (sortInsert compareFn x l) (x :: l).
Proof.
  induction l as [|y l IH]; simpl.
  - apply Permutation_refl.
  - destruct (Qle_bool (compareFn x y) 0).
    + apply Permutation_refl.
    + eapply perm_trans; [apply perm_skip, IH | apply perm_swap].
Qed.

Lemma arraySort_perm (l : list A) : Permutation (arraySort compareFn l) l.
Proof.
  induction l as [|x l IH]; simpl.
  - apply perm_nil.
  - eapply perm_trans; [apply sortInsert_perm | apply perm_skip, IH].
Qed.

Lemma sortInsert_sorted (x : A) (l : list A) :
  StronglySorted before l -> StronglySorted before (sortInsert compareFn x l).
Proof.
  induction 1 as [|y l Hsorted IH Hall]; simpl.
  - constructor; constructor.
  - destruct (Qle_bool (compareFn x y) 0) eqn:Hcmp.
    + apply before_iff in Hcmp.
      constructor; [constructor; assumption | ].
      constructor; [exact Hcmp | ].
      eapply Forall_impl; [| exact Hall].
      intros z Hz. eapply before_trans; eassumption.
    + assert (Hyx : before y x).
      { destruct (before_total x y) as [Hxy | Hyx]; [| exact Hyx].
        apply before_iff in Hxy. congruence. }
      constructor; [exact IH | ].
      eapply Permutation_Forall;
        [apply Permutation_sym, sortInsert_perm | ].
      constructor; assumption.
Qed.

Lemma arraySort_sorted (l : list A) :
  StronglySorted before (arraySort compareFn l).
Proof.
  induction l as [|x l IH]; simpl.
  - constructor.
  - apply sortInsert_sorted, IH.
Qed.

End ArraySortFacts.

Lemma StronglySorted_nth_error {A : Type} (R : A -> A -> Prop) (l : list A) :
  StronglySorted R l ->
  forall i j x y, (i < j)%nat ->
    nth_error l i = Some x -> nth_error l j = Some y -> R x y.
Proof.
  induction 1 as [|z l Hsorted IH Hall]; intros i j x y Hij Hi Hj.
  - destruct i; discriminate.
  - destruct j as [|j]; [lia | ]. simpl in Hj.
    destruct i as [|i]; simpl in Hi.
    + injection Hi as <-. rewrite Forall_forall in Hall.
      apply Hall. eapply nth_error_In; eassumption.
    + apply (IH i j); [lia | assumption | assumption].
Qed.

Lemma inject_Z_truthy (z : Z) : truthyNumber (inject_Z z) = negb (z =? 0).
Proof.
  unfold truthyNumber. f_equal.
  destruct (Z.eqb_spec z 0) as [-> | Hne].
  - reflexivity.
  - apply not_true_is_false. intros Heq. apply Qeq_bool_iff in Heq.
    unfold Qeq, inject_Z in Heq; cbn [Qnum Qden] in Heq. lia.
Qed.

Lemma rankingCompare_before (x y : RankedActivity) :
  Qle_bool (rankingCompare x y) 0 = true <-> rankedBefore x y.
Proof.
  unfold rankingCompare, rankedBefore, orNumber.
  rewrite inject_Z_truthy. unfold truthyNumber.
  set (tx := computeTypeBase (type (activity x))).
  set (ty := computeTypeBase (type (activity y))).
  destruct (Qeq_bool (score y - score x) 0) eqn:Hs; cbn [negb].
  - apply Qeq_bool_iff in Hs.
    destruct (Z.eqb_spec (dueTime x - dueTime y) 0) as [Hd | Hd]; cbn [negb].
    + rewrite Qle_bool_iff. split.
      * intros Hle. right. split; [lra | ]. right. split; [lia | lra].
      * intros [Hlt | [_ [Hlt | [_ Hle]]]]; [lra | lia | lra].
    + rewrite Qle_bool_iff. split.
      * intros Hle. right. split; [lra | ]. left.
        unfold Qle, inject_Z in Hle; cbn [Qnum Qden] in Hle. lia.
      * intros [Hlt | [_ [Hlt | [Heq _]]]]; [lra | | lia].
        unfold Qle, inject_Z; cbn [Qnum Qden]. lia.
  - apply Qeq_bool_neq in Hs. rewrite Qle_bool_iff. split.
    + intros Hle. left.
      destruct (Qlt_le_dec (score y) (score x)) as [Hlt | Hge]; [exact Hlt | ].
      exfalso. apply Hs. lra.
    + intros [Hlt | [Heq _]]; [lra | ]. exfalso. apply Hs. lra.
Qed.

Lemma rankedBefore_total (x y : RankedActivity) :
  rankedBefore x y \/ rankedBefore y x.
Proof.
  unfold rankedBefore.
  set (tx := computeTypeBase (type (activity x))).
  set (ty := computeTypeBase (type (activity y))).
  destruct (Q_dec (score x) (score y)) as [[Hlt | Hgt] | Heq].
  - right. left. exact Hlt.
  - left. left. exact Hgt.
  - destruct (Z.lt_total (dueTime x) (dueTime y)) as [Hd | [Hd | Hd]].
    + left. right. split; [exact Heq | left; exact Hd].
    + destruct (Qlt_le_dec tx ty) as [Ht | Ht].
      * right. right. split; [symmetry; exact Heq | ].
        right. split; [symmetry; exact Hd | lra].
      * left. right. split; [exact Heq | ]. right. split; assumption.
    + right. right. split; [symmetry; exact Heq | left; exact Hd].
Qed.

Lemma rankedBefore_trans (x y z : RankedActivity) :
  rankedBefore x y -> rankedBefore y z -> rankedBefore x z.
Proof.
  unfold rankedBefore.
  set (tx := computeTypeBase (type (activity x))).
  set (ty := computeTypeBase (type (activity y))).
  set (tz := computeTypeBase (type (activity z))).
  intros [Hxy | [Hxy Dxy]] [Hyz | [Hyz Dyz]].
  - left. lra.
  - left. lra.
  - left. lra.
  - right. split; [lra | ].
    destruct Dxy as [Dxy | [Dxy Txy]]; destruct Dyz as [Dyz | [Dyz Tyz]].
    + left. lia.
    + left. lia.
    + left. lia.
    + right. split; [lia | lra].
Qed.

Lemma activity_rankActivity (a : Activity) (nowUtc : Z) :
  activity (rankActivity a nowUtc) = a.
Proof.
  unfold rankActivity.
  destruct (priority a =? "manual")%string; destruct (manualPriority a);
    reflexivity.
Qed.

Lemma map_activity_rank (l : list Activity) (nowUtc : Z) :
  map activity (map (fun a => rankActivity a nowUtc) l) = l.
Proof.
  induction l as [|a l IH]; simpl; [reflexivity | ].
  rewrite activity_rankActivity, IH. reflexivity.
Qed.

Lemma ranking_perm (store : Store) (subjectIdParam : option string) (nowUtc : Z) :
  Permutation (ranking store subjectIdParam nowUtc)
    (map (fun a => rankActivity a nowUtc)
       (findMany store (rankingWhere subjectIdParam))).
Proof. unfold ranking. apply arraySort_perm. Qed.

Lemma matchesWhere_ranking (subjectIdParam : option string) (a : Activity) :
  matchesWhere (rankingWhere subjectIdParam) a =
  negb (isClass a) && matchesSubject (effectiveSubject subjectIdParam) a.
Proof.
  unfold matchesWhere, rankingWhere, isClass, matchesSubject,
    effectiveSubject, truthyString; cbn [whereNotType whereSubjectId].
  destruct subjectIdParam as [s|]; [| reflexivity].
  destruct (s =? "")%string; reflexivity.
Qed.

(** C5, as stated, fails: among equal scores an activity without due date
    does not always come first. Both rows score 5; the one due before the
    epoch is returned ahead of the one without due date. *)
Lemma ranking_null_due_not_always_first :
  ranking [undatedRow; preEpochRow] None 0 =
    [rankActivity preEpochRow 0; rankActivity undatedRow 0] /\
  ~ nullDueFirstAmongTies (ranking [undatedRow; preEpochRow] None 0).
Proof.
  split; [reflexivity | ].
  intros H.
  specialize (H 1%nat 0%nat (rankActivity undatedRow 0)
                (rankActivity preEpochRow 0) eq_refl eq_refl).
  assert (Hlt : (1 < 0)%nat).
  { apply H; [reflexivity | reflexivity | discriminate]. }
  lia.
Qed.

(** C5, amended. The ranking is the scored candidates sorted by descending
    score; on equal scores by ascending due time, an absent due date
    counting as time 0; on equal due times by descending type base. An
    activity without due date therefore comes before every activity of
    equal score whose due date is after the epoch. *)
Theorem ranking_sorted (store : Store) (subjectIdParam : option string)
    (nowUtc : Z) :
  StronglySorted rankedBefore (ranking store subjectIdParam nowUtc) /\
  Permutation (ranking store subjectIdParam nowUtc)
    (map (fun a => rankActivity a nowUtc)
       (findMany store (rankingWhere subjectIdParam))) /\
  (forall i j x y t,
     nth_error (ranking store subjectIdParam nowUtc) i = Some x ->
     nth_error (ranking store subjectIdParam nowUtc) j = Some y ->
     (score x == score y)%Q ->
     dueAt (activity x) = None -> dueAt (activity y) = Some t -> 0 < t ->
     (i < j)%nat).
Proof.
  assert (Hsorted : StronglySorted rankedBefore
                      (ranking store subjectIdParam nowUtc)).
  { unfold ranking.
    apply (arraySort_sorted rankingCompare rankedBefore).
    - exact rankingCompare_before.
    - exact rankedBefore_total.
    - exact rankedBefore_trans. }
  split; [exact Hsorted | split; [apply ranking_perm | ]].
  intros i j x y t Hi Hj Hscore Hx Hy Ht.
  destruct (Nat.lt_trichotomy i j) as [Hlt | [Heq | Hgt]]; [exact Hlt | | ].
  - subst j. rewrite Hi in Hj. injection Hj as <-. congruence.
  - exfalso.
    pose proof (StronglySorted_nth_error rankedBefore _ Hsorted j i y x
                  Hgt Hj Hi) as Hyx.
    unfold rankedBefore, dueTime in Hyx. rewrite Hx, Hy in Hyx.
    destruct Hyx as [Hlt | [_ [Hlt | [Heq _]]]]; [lra | lia | lia].
Qed.

Lemma ranking_sorted_witness :
  ranking [examCompleted; examPending] None 0 =
    [rankActivity examPending 0; rankActivity examCompleted 0] /\
  StronglySorted rankedBefore (ranking [examCompleted; examPending] None 0).
Proof.
  split; [reflexivity | ].
  exact (proj1 (ranking_sorted [examCompleted; examPending] None 0)).
Defined.

(** An undated activity ahead of a dated one of equal automatic score. *)
Example ranking_tie_undated_first :
  map (fun r => (id (activity r), Qred (score r)))
    (ranking [examInTwentyHours; undatedExam] None 0)
  = [("t1"%string, 120%Q); ("t2"%string, 120%Q)].
Proof. vm_compute. reflexivity. Qed.

(** Equal score and equal due date: the higher type base first. *)
Example ranking_tie_type_base :
  map (fun r => id (activity r))
    (ranking [preEpochRow; preEpochExam] None 0)
  = ["u3"; "u2"]%string.
Proof. vm_compute. reflexivity. Qed.

(** C6, as stated, fails for the empty subject id: the endpoint treats it
    as no filter and returns a non-class activity of subject "prog", which
    does not match the id. *)
Lemma ranking_empty_subject_unfiltered :
  map activity (ranking [examPending] (Some ""%string) 0) = [examPending] /\
  filter (fun a => negb (isClass a) && matchesSubject (Some ""%string) a)
    [examPending] = [] /\
  ~ Permutation (map activity (ranking [examPending] (Some ""%string) 0))
      (filter (fun a => negb (isClass a) && matchesSubject (Some ""%string) a)
         [examPending]).
Proof.
  split; [reflexivity | split; [reflexivity | ]].
  intros H. apply Permutation_length in H. discriminate H.
Qed.

(** C6, amended. Whatever is stored, the ranking holds no activity of
    type class, and its activities are exactly the stored non-class
    activities that match the subject id, where an empty id counts as no
    filter. *)
Theorem ranking_excludes_classes (store : Store)
    (subjectIdParam : option string) (nowUtc : Z) :
  Forall (fun r => type (activity r) <> "clase"%string)
    (ranking store subjectIdParam nowUtc) /\
  Permutation (map activity (ranking store subjectIdParam nowUtc))
    (filter (fun a => negb (isClass a) &&
                      matchesSubject (effectiveSubject subjectIdParam) a)
       store) /\
  (subjectIdParam <> Some ""%string ->
   Permutation (map activity (ranking store subjectIdParam nowUtc))
     (filter (fun a => negb (isClass a) && matchesSubject subjectIdParam a)
        store)).
Proof.
  assert (Hperm : Permutation
            (map activity (ranking store subjectIdParam nowUtc))
            (filter (fun a => negb (isClass a) &&
                       matchesSubject (effectiveSubject subjectIdParam) a)
               store)).
  { eapply perm_trans.
    - apply Permutation_map, ranking_perm.
    - rewrite map_activity_rank. unfold findMany.
      rewrite (filter_ext _ _ (matchesWhere_ranking subjectIdParam)).
      apply Permutation_refl. }
  split; [| split; [exact Hperm | ]].
  - apply Forall_forall. intros r Hr.
    apply (in_map activity) in Hr.
    apply (Permutation_in _ Hperm) in Hr.
    apply filter_In in Hr. destruct Hr as [_ Hr].
    apply andb_prop in Hr. destruct Hr as [Hr _].
    unfold isClass in Hr. apply negb_true_iff in Hr.
    apply String.eqb_neq. exact Hr.
  - intros Hne.
    replace (effectiveSubject subjectIdParam) with subjectIdParam in Hperm;
      [exact Hperm | ].
    unfold effectiveSubject. destruct subjectIdParam as [s|]; [| reflexivity].
    destruct (String.eqb_spec s ""); [subst; congruence | reflexivity].
Qed.

Lemma ranking_excludes_classes_witness :
  Permutation
    (map activity
       (ranking [classRow; examPending; undatedRow] (Some "prog"%string) 0))
    (filter (fun a => negb (isClass a) && matchesSubject (Some "prog"%string) a)
       [classRow; examPending; undatedRow]).
Proof.
  apply (proj2 (proj2 (ranking_excludes_classes
                         [classRow; examPending; undatedRow]
                         (Some "prog"%string) 0))).
  discriminate.
Defined.

(** A class is left out even with a manual priority above every score. *)
Example ranking_drops_class :
  map (fun r => id (activity r))
    (ranking [classRow; undatedRow; examCompleted; examPending] None 0)
  = ["e1"; "e2"; "u1"]%string.
Proof. vm_compute. reflexivity. Qed.

(** ** The completion toggle *)

Lemma findUnique_id (store : Store) (i : string) (a : Activity) :
  findUnique store i = Some a -> id a = i.
Proof.
  unfold findUnique. intros H. apply find_some in H.
  destruct H as [_ H]. apply String.eqb_eq. exact H.
Qed.

Lemma findUnique_updateRow (store : Store) (i : string) (a row : Activity) :
  findUnique store i = Some a -> id row = i ->
  findUnique (updateRow store i row) i = Some row.
Proof.
  unfold findUnique. intros Hfind Hid.
  induction store as [|b rest IH]; simpl in *; [discriminate | ].
  destruct (id b =? i)%string eqn:Hb; simpl.
  - rewrite Hid, String.eqb_refl. reflexivity.
  - rewrite Hb. apply IH. exact Hfind.
Qed.

Lemma toggleCompleted_found (store : Store) (i : string) (now : Z) (a : Activity) :
  findUnique store i = Some a ->
  exists a1,
    toggleCompleted store i now = (updateRow store i a1, Json a1) /\
    findUnique (fst (toggleCompleted store i now)) i = Some a1 /\
    (status a = "completed"%string ->
       status a1 = "pending"%string /\
       completedAt a1 = None /\ completedBy a1 = None) /\
    (status a <> "completed"%string ->
       status a1 = "completed"%string /\
       completedAt a1 = Some now /\ completedBy a1 = Some "student"%string).
Proof.
  intros Hfind. unfold toggleCompleted. rewrite Hfind.
  eexists. split; [reflexivity | ]. cbn [fst]. split.
  - apply (findUnique_updateRow store i a); [exact Hfind | ].
    cbn [applyData id]. eapply findUnique_id; eassumption.
  - destruct (String.eqb_spec (status a) "completed") as [Hc | Hc].
    + split; [intros _; cbn; repeat split | intros Hne; contradiction].
    + split; [intros He; contradiction | intros _; cbn; repeat split].
Qed.

(** C8, as stated, fails: two toggles turn an in_progress activity into a
    pending one, so the original status is not restored. *)
Lemma toggle_twice_loses_in_progress :
  findUnique [readingInProgress] "r1" = Some readingInProgress /\
  option_map status
    (findUnique (toggleTwice [readingInProgress] "r1" 1 2) "r1")
    = Some "pending"%string /\
  ~ (forall store i t1 t2 a,
       findUnique store i = Some a ->
       exists a2, findUnique (toggleTwice store i t1 t2) i = Some a2 /\
                  status a2 = status a).
Proof.
  split; [reflexivity | split; [reflexivity | ]].
  intros H.
  destruct (H [readingInProgress] "r1"%string 1 2 readingInProgress eq_refl)
    as [a2 [Hfind Hstatus]].
  cbv in Hfind. injection Hfind as <-. discriminate Hstatus.
Qed.

(** C8, amended. For an existing activity, one toggle makes a completed
    activity pending and clears both completion columns, and makes any
    other activity completed and sets both columns. Two toggles restore
    the original status when it was pending or completed, and bring both
    completion columns back to their null or non-null shape when that
    shape agreed with the status (both set exactly when completed); the
    restored timestamp is the instant of the second toggle. *)
Theorem toggle_twice_restores (store : Store) (i : string) (t1 t2 : Z)
    (a : Activity) :
  findUnique store i = Some a ->
  (exists a1,
     toggleCompleted store i t1 = (updateRow store i a1, Json a1) /\
     (status a = "completed"%string ->
        status a1 = "pending"%string /\
        completedAt a1 = None /\ completedBy a1 = None) /\
     (status a <> "completed"%string ->
        status a1 = "completed"%string /\
        completedAt a1 = Some t1 /\ completedBy a1 = Some "student"%string)) /\
  (exists a2,
     findUnique (toggleTwice store i t1 t2) i = Some a2 /\
     (status a = "pending"%string \/ status a = "completed"%string ->
        status a2 = status a) /\
     (completionConsistent a ->
        isSet (completedAt a2) = isSet (completedAt a) /\
        isSet (completedBy a2) = isSet (completedBy a)) /\
     (status a = "completed"%string -> completedAt a2 = Some t2)).
Proof.
  intros Hfind.
  destruct (toggleCompleted_found store i t1 a Hfind)
    as [a1 [Heq1 [Hfind1 [Hc1 Hn1]]]].
  split.
  - exists a1. split; [exact Heq1 | split; assumption].
  - destruct (toggleCompleted_found _ i t2 a1 Hfind1)
      as [a2 [_ [Hfind2 [Hc2 Hn2]]]].
    exists a2. split; [exact Hfind2 | ].
    destruct (String.eqb_spec (status a) "completed") as [Hc | Hc].
    + destruct (Hc1 Hc) as [Hs1 _].
      assert (Hne1 : status a1 <> "completed"%string)
        by (rewrite Hs1; discriminate).
      destruct (Hn2 Hne1) as [Hs2 [Hat2 Hby2]].
      split; [intros _; congruence | split].
      * intros [Hat Hby]. rewrite Hc in Hat, Hby.
        rewrite Hat, Hby, Hat2, Hby2. split; reflexivity.
      * intros _. exact Hat2.
    + destruct (Hn1 Hc) as [Hs1 _].
      destruct (Hc2 Hs1) as [Hs2 [Hat2 Hby2]].
      split; [| split].
      * intros [Hp | Hcomp]; [congruence | contradiction].
      * intros [Hat Hby]. apply String.eqb_neq in Hc.
        rewrite Hc in Hat, Hby.
        rewrite Hat, Hby, Hat2, Hby2. split; reflexivity.
      * intros Hcomp. contradiction.
Qed.

Lemma toggle_twice_restores_witness :
  findUnique [examPending] "e1" = Some examPending /\
  exists a2,
    findUnique (toggleTwice [examPending] "e1" 1 2) "e1" = Some a2 /\
    status a2 = status examPending /\
    isSet (completedAt a2) = isSet (completedAt examPending) /\
    isSet (completedBy a2) = isSet (completedBy examPending).
Proof.
  split; [reflexivity | ].
  destruct (proj2 (toggle_twice_restores [examPending] "e1"%string 1 2
                     examPending eq_refl)) as [a2 [Hfind [Hst [Hshape _]]]].
  exists a2. split; [exact Hfind | split].
  - apply Hst. left. reflexivity.
  - apply Hshape. split; reflexivity.
Defined.

(** ** The weekly summary *)

Section LocalTimeFacts.
Variable tzOffset : Z.

Lemma localDay_localInstant (d ms : Z) :
  0 <= ms < millisecondsInDay ->
  localDay tzOffset (localInstant tzOffset d ms) = d.
Proof.
  intros Hms. unfold localDay, localInstant.
  replace (d * millisecondsInDay + ms - tzOffset + tzOffset)
    with (ms + d * millisecondsInDay) by ring.
  rewrite Z.div_add by (unfold millisecondsInDay; lia).
  rewrite Z.div_small by exact Hms. reflexivity.
Qed.

Lemma startOfDay_bounds (t : Z) :
  startOfDay tzOffset t <= t < startOfDay tzOffset t + millisecondsInDay.
Proof.
  unfold startOfDay, localInstant, localDay, millisecondsInDay.
  Z.div_mod_to_equations. lia.
Qed.

Lemma startOfDay_next (d : Z) :
  startOfDay tzOffset d = d ->
  startOfDay tzOffset (d + millisecondsInDay) = d + millisecondsInDay.
Proof.
  unfold startOfDay, localInstant, localDay. intros Hd.
  replace (d + millisecondsInDay + tzOffset)
    with (d + tzOffset + 1 * millisecondsInDay) by ring.
  rewrite Z.div_add by (unfold millisecondsInDay; lia).
  lia.
Qed.

Lemma startOfDay_unique (t k : Z) :
  startOfDay tzOffset k = k -> k <= t < k + millisecondsInDay ->
  startOfDay tzOffset t = k.
Proof.
  unfold startOfDay, localInstant, localDay, millisecondsInDay.
  intros Hk Ht. Z.div_mod_to_equations. lia.
Qed.

Lemma startOfWeek_startOfDay (now : Z) :
  startOfDay tzOffset (startOfWeek tzOffset now 1) = startOfWeek tzOffset now 1.
Proof.
  unfold startOfWeek, startOfDay. cbv zeta.
  rewrite localDay_localInstant by (unfold millisecondsInDay; lia).
  reflexivity.
Qed.

Lemma endOfWeek_span (now : Z) :
  endOfWeek tzOffset now 1 =
  startOfWeek tzOffset now 1 + 7 * millisecondsInDay - 1.
Proof.
  unfold endOfWeek, startOfWeek, localInstant. cbv zeta.
  destruct (getDay tzOffset now <? 1); ring.
Qed.

Lemma startOfWeek_monday (now : Z) :
  getDay tzOffset (startOfWeek tzOffset now 1) = 1.
Proof.
  unfold startOfWeek. cbv zeta. unfold getDay at 1.
  rewrite localDay_localInstant by (unfold millisecondsInDay; lia).
  unfold getDay.
  destruct (Z.ltb_spec ((localDay tzOffset now + 4) mod 7) 1);
    Z.div_mod_to_equations; lia.
Qed.

Lemma week_contains_now (now : Z) :
  startOfWeek tzOffset now 1 <= now <= endOfWeek tzOffset now 1.
Proof.
  rewrite endOfWeek_span.
  unfold startOfWeek, getDay, localInstant, localDay, millisecondsInDay.
  cbv zeta.
  destruct (Z.ltb_spec (((now + tzOffset) / 86400000 + 4) mod 7) 1);
    Z.div_mod_to_equations; lia.
Qed.

End LocalTimeFacts.

Section WeeklySummaryFacts.
Variable tzOffset : Z.

Lemma mapSet_fresh (key : Z) (v : DayBucket) (m : DayMap) :
  Forall (fun kb => fst kb < key) m -> mapSet key v m = m ++ [(key, v)].
Proof.
  induction m as [|[k b] m IH]; intros Hall; simpl; [reflexivity | ].
  inversion Hall as [|kb m' Hlt Hall']; subst. cbn [fst] in Hlt.
  destruct (Z.eqb_spec k key); [lia | ].
  rewrite IH by exact Hall'. reflexivity.
Qed.

Lemma initDays_spec (n : nat) :
  forall (fuel : nat) (d weekEnd : Z) (byDay : DayMap),
    (n <= fuel)%nat ->
    startOfDay tzOffset d = d ->
    Forall (fun kb => fst kb < d) byDay ->
    d + Z.of_nat n * millisecondsInDay - millisecondsInDay <= weekEnd
      < d + Z.of_nat n * millisecondsInDay ->
    initDays tzOffset fuel d weekEnd byDay = Some (byDay ++ emptyDays d n).
Proof.
  induction n as [|n IH]; intros fuel d weekEnd byDay Hfuel Hd Hkeys Hend.
  - cbn [emptyDays]. rewrite app_nil_r.
    destruct fuel; cbn [initDays];
      destruct (Z.leb_spec d weekEnd); first [lia | reflexivity].
  - destruct fuel as [|fuel]; [lia | ]. cbn [initDays].
    assert (Hday : 0 < millisecondsInDay) by (unfold millisecondsInDay; lia).
    destruct (Z.leb_spec d weekEnd); [| nia].
    cbv zeta. rewrite Hd, mapSet_fresh by exact Hkeys.
    change (24 * 3600 * 1000) with millisecondsInDay.
    rewrite IH.
    + rewrite <- app_assoc. reflexivity.
    + lia.
    + apply startOfDay_next. exact Hd.
    + apply Forall_app. split.
      * eapply Forall_impl; [| exact Hkeys]. intros kb Hkb. cbv beta in *. lia.
      * constructor; [cbn [fst]; lia | constructor].
    + lia.
Qed.

Lemma map_pair_id (m : DayMap) (f : Z -> DayBucket -> DayBucket) :
  (forall kb, In kb m -> f (fst kb) (snd kb) = snd kb) ->
  map (fun kb => (fst kb, f (fst kb) (snd kb))) m = m.
Proof.
  induction m as [|[k b] m IH]; intros Hf; simpl; [reflexivity | ].
  pose proof (Hf (k, b) (or_introl eq_refl)) as Hkb. cbn [fst snd] in Hkb.
  rewrite Hkb, IH; [reflexivity | ].
  intros kb Hin. apply Hf. right. exact Hin.
Qed.

Lemma mapGet_mapSet_pointwise (key : Z) (g : DayBucket -> DayBucket) (m : DayMap) :
  NoDup (map fst m) ->
  match mapGet key m with
  | None => m
  | Some b => mapSet key (g b) m
  end = map (fun kb => (fst kb, if key =? fst kb then g (snd kb) else snd kb)) m.
Proof.
  induction m as [|[k b] m IH]; intros Hnd; [reflexivity | ].
  cbn [map fst] in Hnd. inversion Hnd as [|k' ks Hnotin Hnd']; subst.
  cbn [mapGet mapSet map fst snd]. rewrite (Z.eqb_sym key k).
  destruct (Z.eqb_spec k key) as [-> | Hne].
  - f_equal. symmetry.
    apply (map_pair_id m (fun k b => if key =? k then g b else b)).
    intros [k b'] Hin. cbn [fst snd].
    destruct (Z.eqb_spec key k) as [<- | _]; [| reflexivity].
    exfalso. apply Hnotin. apply (in_map fst) in Hin. exact Hin.
  - specialize (IH Hnd').
    destruct (mapGet key m) as [b'|]; cbn [mapSet].
    + f_equal. exact IH.
    + f_equal. exact IH.
Qed.

Lemma countItem_pointwise (m : DayMap) (it : Activity) :
  NoDup (map fst m) ->
  countItem tzOffset m it =
  map (fun kb => (fst kb, bumpBucket tzOffset (fst kb) it (snd kb))) m.
Proof.
  intros Hnd. unfold countItem, bumpBucket.
  destruct (dueAt it) as [due|].
  - cbv zeta. destruct (type it =? "examen")%string.
    + rewrite <- (mapGet_mapSet_pointwise (startOfDay tzOffset due)
                    (fun b => {| date := date b; entregas := entregas b;
                                 examenes := examenes b + 1 |}) m Hnd).
      reflexivity.
    + rewrite <- (mapGet_mapSet_pointwise (startOfDay tzOffset due)
                    (fun b => {| date := date b;
                                 entregas := entregas b + 1;
                                 examenes := examenes b |}) m Hnd).
      reflexivity.
  - symmetry. apply (map_pair_id m (fun _ b => b)). reflexivity.
Qed.

Lemma fold_countItem_pointwise (items : list Activity) :
  forall m : DayMap,
    NoDup (map fst m) ->
    fold_left (countItem tzOffset) items m =
    map (fun kb =>
           (fst kb,
            fold_left (fun b it => bumpBucket tzOffset (fst kb) it b)
              items (snd kb))) m.
Proof.
  induction items as [|it items IH]; intros m Hnd; cbn [fold_left].
  - symmetry. apply (map_pair_id m (fun _ b => b)). reflexivity.
  - rewrite countItem_pointwise by exact Hnd.
    rewrite IH.
    + rewrite map_map. reflexivity.
    + rewrite map_map. cbn [fst]. exact Hnd.
Qed.

Lemma fold_bumpBucket (key : Z) (items : list Activity) :
  forall b : DayBucket,
    date (fold_left (fun b it => bumpBucket tzOffset key it b) items b)
      = date b /\
    examenes (fold_left (fun b it => bumpBucket tzOffset key it b) items b)
      = examenes b +
        Z.of_nat (List.length (filter (fun it =>
          (type it =? "examen")%string && isDueOn tzOffset key it) items)) /\
    entregas (fold_left (fun b it => bumpBucket tzOffset key it b) items b)
      = entregas b +
        Z.of_nat (List.length (filter (fun it =>
          negb (type it =? "examen")%string && isDueOn tzOffset key it) items)).
Proof.
  induction items as [|it items IH]; intros b; cbn [fold_left filter].
  - cbn [List.length]. repeat split; lia.
  - destruct (IH (bumpBucket tzOffset key it b)) as [Hd [Hx He]].
    rewrite Hd, Hx, He. clear IH Hd Hx He.
    unfold bumpBucket, isDueOn.
    destruct (dueAt it) as [due|].
    + destruct (startOfDay tzOffset due =? key);
        destruct (type it =? "examen")%string;
        cbn [negb andb date examenes entregas List.length];
        repeat split; lia.
    + rewrite !andb_false_r. repeat split; lia.
Qed.

Lemma filter_filter_andb {A : Type} (p q : A -> bool) (l : list A) :
  filter p (filter q l) = filter (fun x => q x && p x) l.
Proof.
  induction l as [|x l IH]; simpl; [reflexivity | ].
  destruct (q x); simpl; [destruct (p x) | ]; rewrite IH; reflexivity.
Qed.

Lemma isDueOn_in_week (weekStart weekEnd key : Z) (a : Activity) :
  startOfDay tzOffset key = key ->
  weekStart <= key -> key + millisecondsInDay - 1 <= weekEnd ->
  isDueOn tzOffset key a = true ->
  match dueAt a with
  | Some due => (weekStart <=? due) && (due <=? weekEnd)
  | None => false
  end = true.
Proof.
  unfold isDueOn. intros Hkey Hlo Hhi.
  destruct (dueAt a) as [due|]; [| discriminate].
  intros Hdue. apply Z.eqb_eq in Hdue.
  pose proof (startOfDay_bounds tzOffset due) as Hb. rewrite Hdue in Hb.
  apply andb_true_intro. split; apply Z.leb_le; lia.
Qed.

Lemma exams_of_week (weekStart weekEnd key : Z) (a : Activity) :
  startOfDay tzOffset key = key ->
  weekStart <= key -> key + millisecondsInDay - 1 <= weekEnd ->
  matchesWeek weekStart weekEnd a &&
    ((type a =? "examen")%string && isDueOn tzOffset key a)
  = hasTypeIn ["examen"%string] a && isDueOn tzOffset key a.
Proof.
  intros Hkey Hlo Hhi. unfold matchesWeek, hasTypeIn. cbn [existsb].
  destruct (isDueOn tzOffset key a) eqn:Hdue.
  - rewrite (isDueOn_in_week weekStart weekEnd key a Hkey Hlo Hhi Hdue).
    destruct (type a =? "examen")%string;
      destruct (type a =? "entrega")%string;
      destruct (type a =? "tarea")%string; reflexivity.
  - rewrite !andb_false_r. reflexivity.
Qed.

Lemma deliveries_of_week (weekStart weekEnd key : Z) (a : Activity) :
  startOfDay tzOffset key = key ->
  weekStart <= key -> key + millisecondsInDay - 1 <= weekEnd ->
  matchesWeek weekStart weekEnd a &&
    (negb (type a =? "examen")%string && isDueOn tzOffset key a)
  = hasTypeIn ["entrega"; "tarea"]%string a && isDueOn tzOffset key a.
Proof.
  intros Hkey Hlo Hhi. unfold matchesWeek, hasTypeIn. cbn [existsb].
  destruct (isDueOn tzOffset key a) eqn:Hdue.
  - rewrite (isDueOn_in_week weekStart weekEnd key a Hkey Hlo Hhi Hdue).
    destruct (String.eqb_spec (type a) "examen") as [-> | _];
      [reflexivity | ].
    cbn [negb andb orb].
    destruct (type a =? "entrega")%string; destruct (type a =? "tarea")%string;
      reflexivity.
  - rewrite !andb_false_r. reflexivity.
Qed.

(** The bucket of one day of the week after the second loop. *)
Lemma bucket_of_day (store : Store) (weekStart weekEnd key : Z) :
  startOfDay tzOffset key = key ->
  weekStart <= key -> key + millisecondsInDay - 1 <= weekEnd ->
  forall b,
    b = fold_left (fun b it => bumpBucket tzOffset key it b)
          (filter (matchesWeek weekStart weekEnd) store)
          {| date := key; entregas := 0; examenes := 0 |} ->
    date b = key /\
    examenes b = dueOnDay tzOffset ["examen"%string] key store /\
    entregas b = dueOnDay tzOffset ["entrega"; "tarea"]%string key store.
Proof.
  intros Hkey Hlo Hhi b ->.
  destruct (fold_bumpBucket key (filter (matchesWeek weekStart weekEnd) store)
              {| date := key; entregas := 0; examenes := 0 |}) as [Hd [Hx He]].
  rewrite Hd, Hx, He. cbn [date examenes entregas]. unfold dueOnDay.
  rewrite !filter_filter_andb.
  rewrite (filter_ext _ _
             (fun a => exams_of_week weekStart weekEnd key a Hkey Hlo Hhi)).
  rewrite (filter_ext _ _
             (fun a => deliveries_of_week weekStart weekEnd key a Hkey Hlo Hhi)).
  repeat split; lia.
Qed.

Lemma startOfDay_later (d j : Z) :
  startOfDay tzOffset d = d ->
  startOfDay tzOffset (d + j * millisecondsInDay) = d + j * millisecondsInDay.
Proof.
  unfold startOfDay, localInstant, localDay. intros Hd.
  replace (d + j * millisecondsInDay + tzOffset)
    with (d + tzOffset + j * millisecondsInDay) by ring.
  rewrite Z.div_add by (unfold millisecondsInDay; lia).
  lia.
Qed.

Lemma emptyDays_Forall (P : Z * DayBucket -> Prop) (n : nat) :
  forall d,
    (forall j, 0 <= j < Z.of_nat n ->
       P (d + j * millisecondsInDay,
          {| date := d + j * millisecondsInDay; entregas := 0; examenes := 0 |})) ->
    Forall P (emptyDays d n).
Proof.
  induction n as [|n IH]; intros d HP; cbn [emptyDays]; constructor.
  - specialize (HP 0). rewrite Z.mul_0_l, Z.add_0_r in HP. apply HP. lia.
  - apply IH. intros j Hj. specialize (HP (j + 1)).
    replace (d + (j + 1) * millisecondsInDay)
      with (d + millisecondsInDay + j * millisecondsInDay) in HP by ring.
    apply HP. lia.
Qed.

Lemma emptyDays_keys_above (n : nat) :
  forall d, Forall (fun k => d <= k) (map fst (emptyDays d n)).
Proof.
  induction n as [|n IH]; intros d; cbn [emptyDays map fst]; constructor.
  - lia.
  - eapply Forall_impl; [| apply IH]. intros k Hk. cbv beta in Hk.
    unfold millisecondsInDay in Hk. lia.
Qed.

Lemma emptyDays_NoDup (n : nat) :
  forall d, NoDup (map fst (emptyDays d n)).
Proof.
  induction n as [|n IH]; intros d; cbn [emptyDays map fst]; constructor.
  - intros Hin.
    pose proof (emptyDays_keys_above n (d + millisecondsInDay)) as Habove.
    rewrite Forall_forall in Habove. apply Habove in Hin.
    unfold millisecondsInDay in Hin. lia.
  - apply IH.
Qed.

Lemma emptyDays_dates (n : nat) :
  forall d,
    map fst (emptyDays d n) =
    map (fun j => d + Z.of_nat j * millisecondsInDay) (seq 0 n).
Proof.
  induction n as [|n IH]; intros d; cbn [emptyDays map fst seq].
  - reflexivity.
  - f_equal; [cbn; lia | ].
    rewrite IH, <- seq_shift, map_map. apply map_ext. intros j. lia.
Qed.

End WeeklySummaryFacts.

Lemma isDueOn_dueWithinDay (tzOffset key : Z) (a : Activity) :
  startOfDay tzOffset key = key ->
  isDueOn tzOffset key a = dueWithinDay key a.
Proof.
  intros Hkey. unfold isDueOn, dueWithinDay.
  destruct (dueAt a) as [due|]; [| reflexivity].
  pose proof (startOfDay_bounds tzOffset due) as Hbounds.
  destruct (Z.eqb_spec (startOfDay tzOffset due) key) as [Heq | Hne];
    destruct (Z.leb_spec key due); destruct (Z.ltb_spec due (key + millisecondsInDay));
    cbn [andb]; try reflexivity; try lia.
  exfalso. apply Hne. apply startOfDay_unique; [exact Hkey | lia].
Qed.

Lemma dueOnDay_countDueWithinDay (tzOffset key : Z) (tys : list string)
    (store : Store) :
  startOfDay tzOffset key = key ->
  dueOnDay tzOffset tys key store = countDueWithinDay tys key store.
Proof.
  intros Hkey. unfold dueOnDay, countDueWithinDay. do 2 f_equal.
  apply filter_ext. intros a.
  rewrite (isDueOn_dueWithinDay tzOffset key a Hkey). reflexivity.
Qed.

Lemma startOfDay_local_midnight (tzOffset key : Z) :
  startOfDay tzOffset key = key ->
  (key + tzOffset) mod millisecondsInDay = 0.
Proof.
  unfold startOfDay, localInstant, localDay, millisecondsInDay.
  intros Hkey. Z.div_mod_to_equations. lia.
Qed.

(** C9. For every store and every instant the weekly summary is returned
    (seven iterations of the first loop suffice) with exactly seven
    buckets, dated with the local midnights of the seven consecutive days
    from the Monday that starts the week containing now, whether or not
    any exam, delivery or homework is due in the week; each bucket holds
    its date, the number of stored exams whose due date lies in the 24
    hours from that date, and the number of stored deliveries and homework
    whose due date lies in those 24 hours. *)
Theorem weeklySummary_seven_days (tzOffset : Z) (store : Store) (now : Z) :
  exists summary : WeeklySummary,
    (forall fuel, (7 <= fuel)%nat ->
       weeklySummary tzOffset fuel store now = Some summary) /\
    List.length (days summary) = 7%nat /\
    map date (days summary) =
      map (fun j => startOfWeek tzOffset now 1 + j * millisecondsInDay)
        [0; 1; 2; 3; 4; 5; 6] /\
    getDay tzOffset (startOfWeek tzOffset now 1) = 1 /\
    ((startOfWeek tzOffset now 1 + tzOffset) / millisecondsInDay) mod 7 = 4 /\
    startOfWeek tzOffset now 1 <= now
      < startOfWeek tzOffset now 1 + 7 * millisecondsInDay /\
    Forall (fun b =>
      startOfDay tzOffset (date b) = date b /\
      (date b + tzOffset) mod millisecondsInDay = 0 /\
      examenes b = countDueWithinDay ["examen"%string] (date b) store /\
      entregas b =
        countDueWithinDay ["entrega"; "tarea"]%string (date b) store)
      (days summary).
Proof.
  pose proof (startOfWeek_startOfDay tzOffset now) as Hsod.
  pose proof (endOfWeek_span tzOffset now) as Hspan.
  pose proof (week_contains_now tzOffset now) as Hnow.
  pose proof (startOfWeek_monday tzOffset now) as Hmonday.
  set (weekStart := startOfWeek tzOffset now 1) in *.
  set (weekEnd := endOfWeek tzOffset now 1) in *.
  set (items := filter (matchesWeek weekStart weekEnd) store).
  set (tally := fun kb : Z * DayBucket =>
         fold_left (fun b it => bumpBucket tzOffset (fst kb) it b)
           items (snd kb)).
  assert (Hdays : Forall (fun kb =>
            (startOfDay tzOffset (fst kb) = fst kb /\
             weekStart <= fst kb /\
             fst kb + millisecondsInDay - 1 <= weekEnd) /\
            snd kb = {| date := fst kb; entregas := 0; examenes := 0 |})
            (emptyDays weekStart 7)).
  { apply emptyDays_Forall. intros j Hj. cbn [fst snd].
    split; [| reflexivity].
    split; [apply startOfDay_later; exact Hsod | ].
    unfold millisecondsInDay in *. lia. }
  exists {| rangeStart := weekStart; rangeEnd := weekEnd;
            days := map tally (emptyDays weekStart 7) |}.
  cbn [days]. split; [| split; [| split; [| split; [| split; [| split]]]]].
  - intros fuel Hfuel. unfold weeklySummary. cbv zeta.
    fold weekStart weekEnd. fold items.
    rewrite (initDays_spec tzOffset 7 fuel weekStart weekEnd [] Hfuel Hsod).
    + cbn [app]. rewrite fold_countItem_pointwise by apply emptyDays_NoDup.
      unfold mapValues. rewrite map_map. reflexivity.
    + constructor.
    + unfold millisecondsInDay in *. lia.
  - rewrite length_map. reflexivity.
  - rewrite map_map.
    transitivity (map fst (emptyDays weekStart 7)).
    + apply map_ext_in. intros kb Hin.
      rewrite Forall_forall in Hdays. destruct (Hdays kb Hin) as [_ Hb].
      unfold tally.
      destruct (fold_bumpBucket tzOffset (fst kb) items (snd kb)) as [Hd _].
      rewrite Hd, Hb. reflexivity.
    + rewrite emptyDays_dates. reflexivity.
  - exact Hmonday.
  - unfold getDay, localDay in Hmonday. unfold millisecondsInDay in *.
    Z.div_mod_to_equations. lia.
  - unfold millisecondsInDay in *. lia.
  - apply Forall_map. eapply Forall_impl; [| exact Hdays].
    intros kb [[Hkey [Hlo Hhi]] Hb].
    destruct (bucket_of_day tzOffset store weekStart weekEnd (fst kb)
                Hkey Hlo Hhi (tally kb)) as [Hd [Hx He]].
    { unfold tally. rewrite Hb. reflexivity. }
    rewrite Hd, Hx, He.
    rewrite !(dueOnDay_countDueWithinDay tzOffset (fst kb)) by exact Hkey.
    split; [exact Hkey | split; [| split; reflexivity]].
    apply startOfDay_local_midnight. exact Hkey.
Qed.

Lemma weeklySummary_seven_days_witness :
  exists summary : WeeklySummary,
    weeklySummary (-18000000) 7 weekRows 1793806200000 = Some summary /\
    map (fun b => (date b, entregas b, examenes b)) (days summary) =
      [(1793595600000, 2, 0); (1793682000000, 0, 0); (1793768400000, 0, 1);
       (1793854800000, 0, 0); (1793941200000, 0, 0); (1794027600000, 0, 0);
       (1794114000000, 0, 0)] /\
    Forall (fun b =>
      startOfDay (-18000000) (date b) = date b /\
      (date b + -18000000) mod millisecondsInDay = 0 /\
      examenes b = countDueWithinDay ["examen"%string] (date b) weekRows /\
      entregas b =
        countDueWithinDay ["entrega"; "tarea"]%string (date b) weekRows)
      (days summary).
Proof.
  destruct (weeklySummary_seven_days (-18000000) weekRows 1793806200000)
    as [summary [Hrun [_ [_ [_ [_ [_ Hcounts]]]]]]].
  exists summary.
  split; [apply Hrun; apply le_n | split; [| exact Hcounts]].
  pose proof (Hrun 7%nat (le_n 7)) as Hseven.
  vm_compute in Hseven. injection Hseven as Hsummary.
  rewrite <- Hsummary. reflexivity.
Defined.

(** With nothing stored, the week of Wednesday 2026-11-04 in Bogota has
    seven empty buckets, Monday to Sunday. *)
Example weeklySummary_empty_store :
  option_map days (weeklySummary (-18000000) 7 [] 1793806200000) =
  Some (map (fun d => {| date := d; entregas := 0; examenes := 0 |})
          [1793595600000; 1793682000000; 1793768400000; 1793854800000;
           1793941200000; 1794027600000; 1794114000000]).
Proof. vm_compute. reflexivity. Qed.

(** An exam and a delivery counted in their buckets (UTC clock). *)
Example weeklySummary_counts :
  option_map days
    (weeklySummary 0 7 [examPending; deliveryRow; classRow] 0) =
  Some [ {| date := -259200000; entregas := 0; examenes := 0 |};
         {| date := -172800000; entregas := 0; examenes := 0 |};
         {| date := -86400000; entregas := 0; examenes := 0 |};
         {| date := 0; entregas := 0; examenes := 1 |};
         {| date := 86400000; entregas := 1; examenes := 0 |};
         {| date := 172800000; entregas := 0; examenes := 0 |};
         {| date := 259200000; entregas := 0; examenes := 0 |} ].
Proof. vm_compute. reflexivity. Qed.

(** ** Further properties of the scoring engine *)

Lemma computeTypeBase_range (ty : string) :
  (10 <= computeTypeBase ty <= 100)%Q.
Proof.
  unfold computeTypeBase.
  destruct (ty =? "examen")%string;
    [| destruct ((ty =? "entrega")%string || (ty =? "tarea")%string);
       [| destruct (ty =? "lectura")%string]];
    split; unfold Qle; simpl; lia.
Qed.

Lemma computeStateAdjust_range (st : string) :
  (-100 <= computeStateAdjust st <= 20)%Q.
Proof.
  unfold computeStateAdjust.
  destruct (st =? "pending")%string;
    [| destruct (st =? "in_progress")%string;
       [| destruct (st =? "completed")%string]];
    split; unfold Qle; simpl; lia.
Qed.

Lemma urgencyOf_range (a : Activity) (nowUtc : Z) :
  (0 <= urgencyOf (hoursRemainingOf a nowUtc) <= 200)%Q.
Proof.
  destruct (hoursRemainingOf a nowUtc) as [h|] eqn:E.
  - pose proof (hoursRemainingOf_ge_1 a nowUtc h E) as Hge.
    rewrite (urgencyOf_defined h Hge).
    destruct (urgency_bounds h Hge) as [Hpos Hle].
    split; [apply Qlt_le_weak; exact Hpos | exact Hle].
  - cbn [urgencyOf]. split; unfold Qle; simpl; lia.
Qed.

(** X1. Every automatic score lies between -90 and 320. *)
Theorem auto_score_bounds (a : Activity) (nowUtc : Z) :
  manualHonored a = false ->
  (-90 <= score (rankActivity a nowUtc) <= 320)%Q.
Proof.
  intros Hauto. destruct (rankActivity_auto a nowUtc Hauto) as [-> _].
  rewrite autoScoreOf_unfold.
  pose proof (computeTypeBase_range (type a)) as Ht.
  pose proof (computeStateAdjust_range (status a)) as Hs.
  pose proof (urgencyOf_range a nowUtc) as Hu.
  lra.
Qed.

Lemma auto_score_bounds_witness :
  manualHonored examPending = false /\
  (-90 <= score (rankActivity examPending 0) <= 320)%Q.
Proof.
  split; [reflexivity | exact (auto_score_bounds examPending 0 eq_refl)].
Defined.

Lemma differenceInHours_mono (d1 d2 nowUtc : Z) :
  d1 <= d2 -> differenceInHours d1 nowUtc <= differenceInHours d2 nowUtc.
Proof.
  intros Hle. unfold differenceInHours, millisecondsInHour.
  apply Z.quot_le_mono; lia.
Qed.

Lemma urgency_antitone (h1 h2 : Z) :
  1 <= h1 -> h1 <= h2 -> (200 / inject_Z h2 <= 200 / inject_Z h1)%Q.
Proof.
  intros H1 H12.
  destruct h1 as [|p1|p1]; try lia. destruct h2 as [|p2|p2]; try lia.
  unfold Qle, Qdiv, Qmult, Qinv, inject_Z; cbn [Qnum Qden].
  rewrite !Pos.mul_1_l. nia.
Qed.

(** X2. In auto mode, with type and status fixed, a later due date never
    scores higher, and no due date scores lowest. *)
Theorem score_antitone_in_due_date (a b : Activity) (nowUtc : Z) :
  type a = type b -> status a = status b ->
  manualHonored a = false -> manualHonored b = false ->
  (forall d1, dueAt a = Some d1 ->
     match dueAt b with
     | Some d2 => d1 <= d2
     | None => True
     end ->
     (score (rankActivity b nowUtc) <= score (rankActivity a nowUtc))%Q).
Proof.
  intros Hty Hst Ha Hb d1 Hd1 Hlater.
  destruct (rankActivity_auto a nowUtc Ha) as [-> _].
  destruct (rankActivity_auto b nowUtc Hb) as [-> _].
  rewrite !autoScoreOf_unfold, Hty, Hst.
  assert (Hurg : (urgencyOf (hoursRemainingOf b nowUtc)
                  <= urgencyOf (hoursRemainingOf a nowUtc))%Q).
  { unfold hoursRemainingOf at 2. rewrite Hd1.
    assert (H1 : 1 <= Z.max 1 (differenceInHours d1 nowUtc))
      by apply Z.le_max_l.
    rewrite (urgencyOf_defined _ H1).
    unfold hoursRemainingOf. destruct (dueAt b) as [d2|].
    - assert (H2 : 1 <= Z.max 1 (differenceInHours d2 nowUtc))
        by apply Z.le_max_l.
      rewrite (urgencyOf_defined _ H2).
      apply urgency_antitone; [exact H1 | ].
      pose proof (differenceInHours_mono d1 d2 nowUtc Hlater). lia.
    - cbn [urgencyOf]. apply Qlt_le_weak.
      exact (proj1 (urgency_bounds _ H1)). }
  lra.
Qed.

Lemma score_antitone_in_due_date_witness :
  (score (rankActivity examInThreeHours 0)
   <= score (rankActivity examPending 0))%Q /\
  (score (rankActivity undatedExam 0)
   <= score (rankActivity examPending 0))%Q.
Proof.
  split.
  - apply (score_antitone_in_due_date examPending examInThreeHours 0
             eq_refl eq_refl eq_refl eq_refl millisecondsInHour eq_refl).
    discriminate.
  - exact (score_antitone_in_due_date examPending undatedExam 0
             eq_refl eq_refl eq_refl eq_refl millisecondsInHour eq_refl I).
Defined.

(** X3. Completed activities do not always sink: in auto mode a completed
    activity with one remaining hour (overdue, or due in less than two
    hours) scores strictly above a pending or in_progress activity of the
    same type that has no due date or at least three remaining hours. *)
Theorem completed_overdue_outranks_distant (c p : Activity) (nowUtc : Z) :
  type c = type p ->
  manualHonored c = false -> manualHonored p = false ->
  status c = "completed"%string ->
  status p = "pending"%string \/ status p = "in_progress"%string ->
  hoursRemainingOf c nowUtc = Some 1 ->
  match hoursRemainingOf p nowUtc with
  | Some h => 3 <= h
  | None => True
  end ->
  (score (rankActivity p nowUtc) < score (rankActivity c nowUtc))%Q.
Proof.
  intros Hty Hc Hp Hsc Hsp Hhc Hhp.
  destruct (rankActivity_auto c nowUtc Hc) as [-> _].
  destruct (rankActivity_auto p nowUtc Hp) as [-> _].
  rewrite !autoScoreOf_unfold, Hty, Hsc, Hhc.
  change (computeStateAdjust "completed") with (-100)%Q.
  change (urgencyOf (Some 1)) with (200 / inject_Z 1)%Q.
  assert (Hone : (200 / inject_Z 1 == 200)%Q) by reflexivity.
  assert (Hurg : (urgencyOf (hoursRemainingOf p nowUtc) <= 200 / inject_Z 3)%Q).
  { destruct (hoursRemainingOf p nowUtc) as [h|].
    - rewrite (urgencyOf_defined h) by lia.
      apply urgency_antitone; lia.
    - cbn [urgencyOf]. unfold Qle; simpl; lia. }
  assert (Hthird : (200 / inject_Z 3 < 80)%Q) by (unfold Qlt; simpl; lia).
  assert (Hadj : (computeStateAdjust (status p) <= 20)%Q)
    by apply computeStateAdjust_range.
  lra.
Qed.

Lemma completed_overdue_outranks_distant_witness :
  (score (rankActivity examInThreeHours 0)
   < score (rankActivity examCompleted 0))%Q.
Proof.
  apply (completed_overdue_outranks_distant examCompleted examInThreeHours 0);
    first [reflexivity | left; reflexivity | discriminate].
Defined.

(** X4. For a dated activity the color is a function of the milliseconds
    left: red below 49 hours (overdue included), none from 49 to below 72
    hours, yellow from 72 to below 121 hours, green from 121 hours on. *)
Theorem color_of_delay (a : Activity) (nowUtc due : Z) :
  dueAt a = Some due ->
  color (rankActivity a nowUtc) = colorOfDelay (due - nowUtc).
Proof.
  intros Hdue.
  assert (Hcol : color (rankActivity a nowUtc)
                 = computeColorByDue (hoursRemainingOf a nowUtc)).
  { unfold rankActivity.
    destruct (priority a =? "manual")%string; destruct (manualPriority a);
      reflexivity. }
  rewrite Hcol. unfold hoursRemainingOf. rewrite Hdue.
  destruct (hoursRemaining_of_delay due nowUtc) as [Hsmall Hlarge].
  unfold computeColorByDue, colorOfDelay.
  destruct (Z.lt_ge_cases (due - nowUtc) (2 * millisecondsInHour))
    as [Hlt | Hge].
  - rewrite (Hsmall Hlt). unfold millisecondsInHour in *.
    destruct (Z.ltb_spec (due - nowUtc) (49 * 3600000)); [reflexivity | lia].
  - rewrite Hlarge by (unfold millisecondsInHour in *; lia).
    unfold millisecondsInHour in *.
    destruct (Z.leb_spec ((due - nowUtc) / 3600000) 48);
      destruct (Z.leb_spec 72 ((due - nowUtc) / 3600000));
      destruct (Z.leb_spec ((due - nowUtc) / 3600000) 120);
      destruct (Z.ltb_spec 120 ((due - nowUtc) / 3600000));
      destruct (Z.ltb_spec (due - nowUtc) (49 * 3600000));
      destruct (Z.ltb_spec (due - nowUtc) (72 * 3600000));
      destruct (Z.ltb_spec (due - nowUtc) (121 * 3600000));
      cbn [andb]; try reflexivity;
      exfalso; Z.div_mod_to_equations; lia.
Qed.

Lemma color_of_delay_witness :
  color (rankActivity examPending (-47 * millisecondsInHour - 3599999)) = red /\
  color (rankActivity examPending (-48 * millisecondsInHour)) = none.
Proof.
  split.
  - exact (color_of_delay examPending (-47 * millisecondsInHour - 3599999)
             millisecondsInHour eq_refl).
  - exact (color_of_delay examPending (-48 * millisecondsInHour)
             millisecondsInHour eq_refl).
Defined.

(** ** Further properties of the ranking endpoint *)

Lemma orNumber_zero (x y : Q) :
  (orNumber x y == 0)%Q <-> (x == 0)%Q /\ (y == 0)%Q.
Proof.
  unfold orNumber, truthyNumber.
  destruct (Qeq_bool x 0) eqn:Hx; cbn [negb].
  - apply Qeq_bool_iff in Hx. tauto.
  - apply Qeq_bool_neq in Hx. tauto.
Qed.

Lemma rankingCompare_zero (x y : RankedActivity) :
  tiesWith x y = true <->
  (score x == score y)%Q /\ dueTime x = dueTime y /\
  (computeTypeBase (type (activity x))
   == computeTypeBase (type (activity y)))%Q.
Proof.
  unfold tiesWith, rankingCompare.
  rewrite Qeq_bool_iff, !orNumber_zero.
  set (tx := computeTypeBase (type (activity x))).
  set (ty := computeTypeBase (type (activity y))).
  assert (Hz : (inject_Z (dueTime x - dueTime y) == 0)%Q
               <-> dueTime x = dueTime y).
  { unfold Qeq, inject_Z; cbn [Qnum Qden]. lia. }
  rewrite Hz. split.
  - intros [Hs [Hd Ht]]. split; [lra | split; [exact Hd | lra]].
  - intros [Hs [Hd Ht]]. split; [lra | split; [exact Hd | lra]].
Qed.

(** X5. The comparator of the ranking is consistent: swapping its
    arguments negates its value. *)
Theorem rankingCompare_antisymmetric (a b : RankedActivity) :
  (rankingCompare a b == - rankingCompare b a)%Q.
Proof.
  unfold rankingCompare, orNumber. rewrite !inject_Z_truthy.
  unfold truthyNumber.
  set (ta := computeTypeBase (type (activity a))).
  set (tb := computeTypeBase (type (activity b))).
  assert (Hinj : (inject_Z (dueTime a - dueTime b)
                  == - inject_Z (dueTime b - dueTime a))%Q).
  { unfold Qeq, Qopp, inject_Z; cbn [Qnum Qden]. lia. }
  destruct (Qeq_bool (score b - score a) 0) eqn:Hba;
    destruct (Qeq_bool (score a - score b) 0) eqn:Hab; cbn [negb].
  - destruct (Z.eqb_spec (dueTime a - dueTime b) 0);
      destruct (Z.eqb_spec (dueTime b - dueTime a) 0); cbn [negb];
      first [lia | exact Hinj | lra].
  - apply Qeq_bool_iff in Hba. apply Qeq_bool_neq in Hab.
    exfalso. apply Hab. lra.
  - apply Qeq_bool_iff in Hab. apply Qeq_bool_neq in Hba.
    exfalso. apply Hba. lra.
  - lra.
Qed.

Section ArraySortStable.
Context {A : Type} (compareFn : A -> A -> Q).
Hypothesis ties_not_separated :
  forall x a y,
    Qeq_bool (compareFn x a) 0 = true -> Qeq_bool (compareFn x y) 0 = true ->
    Qle_bool (compareFn a y) 0 = true.

Lemma sortInsert_ties (x a : A) (l : list A) :
  filter (fun y => Qeq_bool (compareFn x y) 0) (sortInsert compareFn a l)
  = filter (fun y => Qeq_bool (compareFn x y) 0) (a :: l).
Proof.
  induction l as [|y l IH]; [reflexivity | ].
  cbn [sortInsert].
  destruct (Qle_bool (compareFn a y) 0) eqn:Hay; [reflexivity | ].
  cbn [filter] in *. rewrite IH.
  destruct (Qeq_bool (compareFn x a) 0) eqn:Hxa;
    destruct (Qeq_bool (compareFn x y) 0) eqn:Hxy; try reflexivity.
  rewrite (ties_not_separated x a y Hxa Hxy) in Hay. discriminate.
Qed.

Lemma arraySort_ties (x : A) (l : list A) :
  filter (fun y => Qeq_bool (compareFn x y) 0) (arraySort compareFn l)
  = filter (fun y => Qeq_bool (compareFn x y) 0) l.
Proof.
  induction l as [|a l IH]; [reflexivity | ].
  cbn [arraySort fold_right]. fold (arraySort compareFn l).
  rewrite sortInsert_ties. cbn [filter]. rewrite IH. reflexivity.
Qed.

End ArraySortStable.

(** X6. The ranking is stable: rows that tie on score, due time and type
    base come out in the order the store returned them. *)
Theorem ranking_stable (store : Store) (subjectIdParam : option string)
    (nowUtc : Z) (x : RankedActivity) :
  filter (tiesWith x) (ranking store subjectIdParam nowUtc)
  = filter (tiesWith x)
      (map (fun a => rankActivity a nowUtc)
         (findMany store (rankingWhere subjectIdParam))).
Proof.
  unfold ranking. apply (arraySort_ties rankingCompare).
  intros z a y Hza Hzy.
  apply (proj1 (rankingCompare_zero z a)) in Hza.
  apply (proj1 (rankingCompare_zero z y)) in Hzy.
  apply Qle_bool_iff.
  assert (Hay : tiesWith a y = true).
  { apply rankingCompare_zero.
    destruct Hza as [Hs1 [Hd1 Ht1]]. destruct Hzy as [Hs2 [Hd2 Ht2]].
    split; [lra | split; [lia | lra]]. }
  unfold tiesWith in Hay. apply Qeq_bool_iff in Hay. lra.
Qed.

Lemma ranking_is_sorted (store : Store) (subjectIdParam : option string)
    (nowUtc : Z) :
  StronglySorted rankedBefore (ranking store subjectIdParam nowUtc).
Proof.
  unfold ranking. apply (arraySort_sorted rankingCompare rankedBefore).
  - exact rankingCompare_before.
  - exact rankedBefore_total.
  - exact rankedBefore_trans.
Qed.

Lemma ranking_elements (store : Store) (subjectIdParam : option string)
    (nowUtc : Z) (r : RankedActivity) :
  In r (ranking store subjectIdParam nowUtc) ->
  r = rankActivity (activity r) nowUtc /\ In (activity r) store.
Proof.
  intros Hin.
  apply (Permutation_in _ (ranking_perm store subjectIdParam nowUtc)) in Hin.
  apply in_map_iff in Hin. destruct Hin as [a [<- Ha]].
  rewrite activity_rankActivity. split; [reflexivity | ].
  unfold findMany in Ha. apply filter_In in Ha. exact (proj1 Ha).
Qed.

(** X7. A manual priority above 320 puts an activity ahead of every
    automatically scored one in the ranking. *)
Theorem manual_above_320_ranks_first (store : Store)
    (subjectIdParam : option string) (nowUtc : Z)
    (i j : nat) (x y : RankedActivity) (m : Z) :
  nth_error (ranking store subjectIdParam nowUtc) i = Some x ->
  nth_error (ranking store subjectIdParam nowUtc) j = Some y ->
  priority (activity x) = "manual"%string ->
  manualPriority (activity x) = Some m -> 320 < m ->
  manualHonored (activity y) = false ->
  (i < j)%nat.
Proof.
  intros Hi Hj Hmode Hm Hbig Hauto.
  destruct (ranking_elements _ _ _ x (nth_error_In _ _ Hi)) as [Hx _].
  destruct (ranking_elements _ _ _ y (nth_error_In _ _ Hj)) as [Hy _].
  assert (Hsx : (score x == inject_Z m)%Q).
  { rewrite Hx.
    rewrite (proj1 (rankActivity_manual (activity x) nowUtc m Hmode Hm)).
    reflexivity. }
  assert (Hsy : (score y <= 320)%Q).
  { rewrite Hy.
    destruct (rankActivity_auto (activity y) nowUtc Hauto) as [Hs _].
    rewrite Hs, autoScoreOf_unfold.
    pose proof (computeTypeBase_range (type (activity y))).
    pose proof (computeStateAdjust_range (status (activity y))).
    pose proof (urgencyOf_range (activity y) nowUtc).
    lra. }
  assert (Hm320 : (320 < inject_Z m)%Q)
    by (unfold Qlt, inject_Z; cbn [Qnum Qden]; lia).
  destruct (Nat.lt_trichotomy i j) as [Hlt | [Heq | Hgt]]; [exact Hlt | | ].
  - exfalso. subst j. rewrite Hi in Hj. injection Hj as <-. lra.
  - exfalso.
    pose proof (StronglySorted_nth_error rankedBefore _
                  (ranking_is_sorted store subjectIdParam nowUtc)
                  j i y x Hgt Hj Hi) as Hyx.
    destruct Hyx as [Hlt | [Heq _]]; lra.
Qed.

Lemma manual_above_320_ranks_first_witness :
  ranking [examPending; manualTop] None 0
  = [rankActivity manualTop 0; rankActivity examPending 0] /\
  (0 < 1)%nat.
Proof.
  split; [reflexivity | ].
  apply (manual_above_320_ranks_first [examPending; manualTop] None 0
           0 1 (rankActivity manualTop 0) (rankActivity examPending 0) 321);
    first [reflexivity | lia].
Defined.

(** ** Further properties of the completion toggle and of the lookup *)

Lemma findUnique_none (store : Store) (i : string) :
  findUnique store i = None <-> (forall a, In a store -> id a <> i).
Proof.
  unfold findUnique. split.
  - intros Hnone a Hin. apply String.eqb_neq.
    exact (find_none _ _ Hnone a Hin).
  - intros Hall. induction store as [|b rest IH]; [reflexivity | ].
    cbn [find]. destruct (String.eqb_spec (id b) i) as [Heq | _].
    + exfalso. apply (Hall b); [left; reflexivity | exact Heq].
    + apply IH. intros a Hin. apply Hall. right. exact Hin.
Qed.

(** X8. Toggling or fetching an id that no row has answers 404 and leaves
    the table as it was; a 404 is answered only in that case. *)
Theorem unknown_id_not_found (store : Store) (i : string) (now : Z) :
  ((forall a, In a store -> id a <> i) ->
     toggleCompleted store i now = (store, NotFound) /\
     getActivity store i = NotFound) /\
  (snd (toggleCompleted store i now) = NotFound ->
     forall a, In a store -> id a <> i) /\
  (getActivity store i = NotFound ->
     forall a, In a store -> id a <> i).
Proof.
  unfold toggleCompleted, getActivity. split; [| split].
  - intros Hall. apply findUnique_none in Hall. rewrite Hall.
    split; reflexivity.
  - destruct (findUnique store i) eqn:Hfind; cbn [snd]; [discriminate | ].
    intros _. apply findUnique_none. exact Hfind.
  - destruct (findUnique store i) eqn:Hfind; [discriminate | ].
    intros _. apply findUnique_none. exact Hfind.
Qed.

Lemma unknown_id_not_found_witness :
  toggleCompleted [examPending; examCompleted] "zz" 5
  = ([examPending; examCompleted], NotFound) /\
  getActivity [examPending; examCompleted] "zz" = NotFound.
Proof.
  apply (proj1 (unknown_id_not_found [examPending; examCompleted]
                  "zz"%string 5)).
  intros a [<- | [<- | []]]; discriminate.
Defined.

(** X10. Whatever state a row was in, one toggle leaves its status pending
    or completed with both completion columns set exactly when completed;
    from there two further toggles bring back that status and the null or
    non-null shape of both columns. *)
Theorem toggle_establishes_invariant (store : Store) (i : string)
    (t1 t2 t3 : Z) (a : Activity) :
  findUnique store i = Some a ->
  exists a1 a3,
    findUnique (fst (toggleCompleted store i t1)) i = Some a1 /\
    completionConsistent a1 /\
    (status a1 = "pending"%string \/ status a1 = "completed"%string) /\
    findUnique (toggleTwice (fst (toggleCompleted store i t1)) i t2 t3) i
      = Some a3 /\
    status a3 = status a1 /\
    isSet (completedAt a3) = isSet (completedAt a1) /\
    isSet (completedBy a3) = isSet (completedBy a1).
Proof.
  intros Hfind.
  assert (Hstep : forall st t b,
            findUnique st i = Some b ->
            exists b1,
              findUnique (fst (toggleCompleted st i t)) i = Some b1 /\
              completionConsistent b1 /\
              ((status b = "completed"%string /\ status b1 = "pending"%string) \/
               (status b <> "completed"%string /\
                status b1 = "completed"%string))).
  { intros st t b Hb.
    destruct (toggleCompleted_found st i t b Hb)
      as [b1 [_ [Hb1 [Hc Hn]]]].
    exists b1. split; [exact Hb1 | ].
    destruct (String.eqb_spec (status b) "completed") as [He | Hne].
    - destruct (Hc He) as [Hs [Hat Hby]].
      split; [| left; split; assumption].
      unfold completionConsistent. rewrite Hs, Hat, Hby. split; reflexivity.
    - destruct (Hn Hne) as [Hs [Hat Hby]].
      split; [| right; split; assumption].
      unfold completionConsistent. rewrite Hs, Hat, Hby. split; reflexivity. }
  destruct (Hstep store t1 a Hfind) as [a1 [Hf1 [Hc1 Hs1]]].
  destruct (Hstep _ t2 a1 Hf1) as [a2 [Hf2 [_ Hs2]]].
  destruct (Hstep _ t3 a2 Hf2) as [a3 [Hf3 [Hc3 Hs3]]].
  exists a1, a3. split; [exact Hf1 | split; [exact Hc1 | ]].
  assert (Hsame : status a3 = status a1).
  { destruct Hs2 as [[H1 H2] | [H1 H2]]; destruct Hs3 as [[H3 H4] | [H3 H4]].
    - rewrite H2 in H3. discriminate.
    - congruence.
    - destruct Hs1 as [[_ H5] | [_ H5]]; [congruence | contradiction].
    - contradiction. }
  split; [| split; [exact Hf3 | split; [exact Hsame | ]]].
  - destruct Hs1 as [[_ H] | [_ H]]; [left | right]; exact H.
  - destruct Hc1 as [Hat1 Hby1]. destruct Hc3 as [Hat3 Hby3].
    rewrite Hat1, Hby1, Hat3, Hby3, Hsame. split; reflexivity.
Qed.

Lemma toggle_establishes_invariant_witness :
  exists a1 a3,
    findUnique (fst (toggleCompleted [readingInProgress] "r1" 1)) "r1"
      = Some a1 /\
    completionConsistent a1 /\
    findUnique (toggleTwice (fst (toggleCompleted [readingInProgress] "r1" 1))
                  "r1" 2 3) "r1" = Some a3 /\
    status a3 = status a1.
Proof.
  destruct (toggle_establishes_invariant [readingInProgress] "r1"%string
              1 2 3 readingInProgress eq_refl)
    as [a1 [a3 [H1 [H2 [_ [H3 [H4 _]]]]]]].
  exists a1, a3. split; [exact H1 | split; [exact H2 | split; assumption]].
Defined.

(** ** Further properties of the weekly summary *)

Section WeeklyTotals.
Variable tzOffset : Z.

Lemma bucketTotal_cons (b : DayBucket) (l : list DayBucket) :
  bucketTotal (b :: l) = examenes b + entregas b + bucketTotal l.
Proof. reflexivity. Qed.

Lemma bucketTotal_bump (it : Activity) (m : DayMap) :
  bucketTotal
    (map snd (map (fun kb => (fst kb, bumpBucket tzOffset (fst kb) it (snd kb))) m))
  = bucketTotal (map snd m)
    + Z.of_nat (List.length (filter (fun kb => isDueOn tzOffset (fst kb) it) m)).
Proof.
  induction m as [|[k b] m IH]; [reflexivity | ].
  cbn [map fst snd filter]. rewrite !bucketTotal_cons, IH.
  unfold bumpBucket, isDueOn.
  destruct (dueAt it) as [due|]; [| lia].
  destruct (startOfDay tzOffset due =? k); [| lia].
  destruct (type it =? "examen")%string;
    cbn [examenes entregas List.length]; lia.
Qed.

Lemma filter_none {A : Type} (f : A -> bool) (l : list A) :
  (forall x, In x l -> f x = false) -> filter f l = [].
Proof.
  induction l as [|x l IH]; intros Hf; [reflexivity | ].
  cbn [filter]. rewrite (Hf x (or_introl eq_refl)).
  apply IH. intros y Hy. apply Hf. right. exact Hy.
Qed.

Lemma one_bucket_per_item (it : Activity) (due : Z) (m : DayMap) :
  NoDup (map fst m) -> dueAt it = Some due ->
  In (startOfDay tzOffset due) (map fst m) ->
  List.length (filter (fun kb => isDueOn tzOffset (fst kb) it) m) = 1%nat.
Proof.
  intros Hnd Hdue. unfold isDueOn. rewrite Hdue.
  induction m as [|[k b] m IH]; intros Hin; [contradiction | ].
  cbn [map fst] in Hnd, Hin. inversion Hnd as [|k' ks Hnotin Hnd']; subst.
  cbn [filter fst].
  destruct (Z.eqb_spec (startOfDay tzOffset due) k) as [Heq | Hne].
  - cbn [List.length]. f_equal.
    rewrite filter_none; [reflexivity | ].
    intros [k2 b2] Hin2. cbn [fst].
    apply Z.eqb_neq. intros Heq2.
    apply Hnotin. rewrite <- Heq, Heq2.
    apply (in_map fst) in Hin2. exact Hin2.
  - apply IH; [exact Hnd' | ].
    destruct Hin as [Hk | Hin]; [congruence | exact Hin].
Qed.

Lemma fold_countItem_total (items : list Activity) :
  forall m : DayMap,
    NoDup (map fst m) ->
    (forall it, In it items ->
       exists due, dueAt it = Some due /\
                   In (startOfDay tzOffset due) (map fst m)) ->
    bucketTotal (map snd (fold_left (countItem tzOffset) items m))
    = bucketTotal (map snd m) + Z.of_nat (List.length items).
Proof.
  induction items as [|it items IH]; intros m Hnd Hkeys.
  - cbn [fold_left List.length]. lia.
  - cbn [fold_left].
    assert (Hfst : map fst (countItem tzOffset m it) = map fst m).
    { rewrite countItem_pointwise by exact Hnd.
      rewrite map_map. reflexivity. }
    rewrite IH.
    + rewrite countItem_pointwise by exact Hnd.
      rewrite bucketTotal_bump.
      destruct (Hkeys it (or_introl eq_refl)) as [due [Hdue Hin]].
      rewrite (one_bucket_per_item it due m Hnd Hdue Hin).
      cbn [List.length]. lia.
    + rewrite Hfst. exact Hnd.
    + intros it' Hin'. rewrite Hfst. apply Hkeys. right. exact Hin'.
Qed.

Lemma emptyDays_total (n : nat) :
  forall d, bucketTotal (map snd (emptyDays d n)) = 0.
Proof.
  induction n as [|n IH]; intros d; [reflexivity | ].
  cbn [emptyDays map snd]. rewrite bucketTotal_cons, IH. reflexivity.
Qed.

Lemma week_day_has_bucket (weekStart due : Z) :
  startOfDay tzOffset weekStart = weekStart ->
  weekStart <= due <= weekStart + 7 * millisecondsInDay - 1 ->
  In (startOfDay tzOffset due) (map fst (emptyDays weekStart 7)).
Proof.
  intros Hsod Hdue. rewrite emptyDays_dates. apply in_map_iff.
  exists (Z.to_nat (localDay tzOffset due - localDay tzOffset weekStart)).
  unfold startOfDay, localInstant, localDay, millisecondsInDay in *.
  assert (Hrange : 0 <= (due + tzOffset) / 86400000
                        - (weekStart + tzOffset) / 86400000 <= 6)
    by (Z.div_mod_to_equations; lia).
  split.
  - rewrite Z2Nat.id by lia. lia.
  - apply in_seq. lia.
Qed.

End WeeklyTotals.

(** X11. Every stored exam, delivery or homework due within the week is
    counted in exactly one bucket: the counters of the seven buckets add up
    to the number of such rows. *)
Theorem weeklySummary_total (tzOffset : Z) (store : Store) (now : Z)
    (fuel : nat) :
  (7 <= fuel)%nat ->
  exists summary,
    weeklySummary tzOffset fuel store now = Some summary /\
    bucketTotal (days summary)
    = Z.of_nat (List.length
        (filter (matchesWeek (startOfWeek tzOffset now 1)
                   (endOfWeek tzOffset now 1)) store)).
Proof.
  intros Hfuel.
  pose proof (startOfWeek_startOfDay tzOffset now) as Hsod.
  pose proof (endOfWeek_span tzOffset now) as Hspan.
  unfold weeklySummary. cbv zeta.
  set (weekStart := startOfWeek tzOffset now 1) in *.
  set (weekEnd := endOfWeek tzOffset now 1) in *.
  rewrite (initDays_spec tzOffset 7 fuel weekStart weekEnd [] Hfuel Hsod).
  - cbn [app]. eexists. split; [reflexivity | ]. cbn [days]. unfold mapValues.
    rewrite fold_countItem_total.
    + rewrite emptyDays_total. reflexivity.
    + apply emptyDays_NoDup.
    + intros it Hin. apply filter_In in Hin. destruct Hin as [_ Hweek].
      unfold matchesWeek in Hweek. apply andb_prop in Hweek.
      destruct Hweek as [Hrange _].
      destruct (dueAt it) as [due|]; [| discriminate].
      exists due. split; [reflexivity | ].
      apply andb_prop in Hrange. destruct Hrange as [Hlo Hhi].
      apply Z.leb_le in Hlo, Hhi.
      apply week_day_has_bucket; [exact Hsod | lia].
  - constructor.
  - unfold millisecondsInDay in *. lia.
Qed.

Lemma weeklySummary_total_witness :
  exists summary,
    weeklySummary 0 7 [examPending; deliveryRow; classRow; undatedExam] 0
      = Some summary /\
    bucketTotal (days summary) = 2.
Proof.
  exact (weeklySummary_total 0 [examPending; deliveryRow; classRow; undatedExam]
           0 7 (le_n 7)).
Defined.

Lemma week_of_local_day (tzOffset t w : Z) :
  (w + 4) mod 7 = 1 -> w <= localDay tzOffset t <= w + 6 ->
  startOfWeek tzOffset t 1 = localInstant tzOffset w 0 /\
  endOfWeek tzOffset t 1 = localInstant tzOffset (w + 6) (millisecondsInDay - 1).
Proof.
  intros Hmon Hday. unfold startOfWeek, endOfWeek, getDay. cbv zeta.
  split; f_equal;
    destruct (Z.ltb_spec ((localDay tzOffset t + 4) mod 7) 1);
    Z.div_mod_to_equations; lia.
Qed.

(** X12. The week depends only on the week: for every instant between the
    start and the end of the week of [now], the range is the same and so
    is the whole summary. *)
Theorem weeklySummary_same_week (tzOffset : Z) (now now' : Z) :
  startOfWeek tzOffset now 1 <= now' <= endOfWeek tzOffset now 1 ->
  startOfWeek tzOffset now' 1 = startOfWeek tzOffset now 1 /\
  endOfWeek tzOffset now' 1 = endOfWeek tzOffset now 1 /\
  forall fuel store,
    weeklySummary tzOffset fuel store now' = weeklySummary tzOffset fuel store now.
Proof.
  intros Hin.
  set (w := localDay tzOffset now
            - ((if getDay tzOffset now <? 1 then 7 else 0)
               + getDay tzOffset now - 1)).
  assert (Hmon : (w + 4) mod 7 = 1).
  { subst w. unfold getDay.
    destruct (Z.ltb_spec ((localDay tzOffset now + 4) mod 7) 1);
      Z.div_mod_to_equations; lia. }
  assert (Hnow : w <= localDay tzOffset now <= w + 6).
  { subst w. unfold getDay.
    destruct (Z.ltb_spec ((localDay tzOffset now + 4) mod 7) 1);
      Z.div_mod_to_equations; lia. }
  destruct (week_of_local_day tzOffset now w Hmon Hnow) as [Hs He].
  assert (Hnow' : w <= localDay tzOffset now' <= w + 6).
  { rewrite Hs, He in Hin.
    unfold localInstant, localDay, millisecondsInDay in *.
    Z.div_mod_to_equations. lia. }
  destruct (week_of_local_day tzOffset now' w Hmon Hnow') as [Hs' He'].
  assert (Hstart : startOfWeek tzOffset now' 1 = startOfWeek tzOffset now 1)
    by congruence.
  assert (Hend : endOfWeek tzOffset now' 1 = endOfWeek tzOffset now 1)
    by congruence.
  split; [exact Hstart | split; [exact Hend | ]].
  intros fuel store. unfold weeklySummary. cbv zeta.
  rewrite Hstart, Hend. reflexivity.
Qed.

Lemma weeklySummary_same_week_witness :
  startOfWeek (-18000000) 1794200399999 1 = startOfWeek (-18000000) 1793806200000 1 /\
  weeklySummary (-18000000) 7 [] 1794200399999
  = weeklySummary (-18000000) 7 [] 1793806200000.
Proof.
  destruct (weeklySummary_same_week (-18000000) 1793806200000 1794200399999)
    as [Hs [_ Hsum]].
  - split; discriminate.
  - split; [exact Hs | exact (Hsum 7%nat [])].
Defined.

(** ** The day panel and the listing *)

Section OrderByFacts.
Variable key : Activity -> option Z.

Lemma compareNullsFirst_before (x y : Activity) :
  Qle_bool (compareNullsFirst (key x) (key y)) 0 = true <-> ascendingBy key x y.
Proof.
  unfold compareNullsFirst, ascendingBy. rewrite Qle_bool_iff.
  destruct (key x) as [s|]; destruct (key y) as [t|];
    unfold Qle, inject_Z; cbn [Qnum Qden]; split; intros H;
    first [exact I | lia | contradiction].
Qed.

Lemma ascendingBy_total (x y : Activity) :
  ascendingBy key x y \/ ascendingBy key y x.
Proof.
  unfold ascendingBy. destruct (key x) as [s|]; destruct (key y) as [t|];
    first [lia | left; exact I | right; exact I].
Qed.

Lemma ascendingBy_trans (x y z : Activity) :
  ascendingBy key x y -> ascendingBy key y z -> ascendingBy key x z.
Proof.
  unfold ascendingBy.
  destruct (key x) as [s|]; destruct (key y) as [t|]; destruct (key z) as [u|];
    intros Hxy Hyz; first [exact I | contradiction | lia].
Qed.

Lemma orderBy_sorted (l : list Activity) :
  StronglySorted (ascendingBy key)
    (arraySort (fun a b => compareNullsFirst (key a) (key b)) l).
Proof.
  apply (arraySort_sorted (fun a b => compareNullsFirst (key a) (key b))
           (ascendingBy key)).
  - exact compareNullsFirst_before.
  - exact ascendingBy_total.
  - exact ascendingBy_trans.
Qed.

End OrderByFacts.

Lemma withinRange_day (tzOffset now : Z) (o : option Z) :
  withinRange (startOfDay tzOffset now) (endOfDay tzOffset now) o
  = onDayOf tzOffset now o.
Proof.
  unfold withinRange, onDayOf. destruct o as [t|]; [| reflexivity].
  unfold endOfDay, startOfDay, localInstant, localDay, millisecondsInDay.
  destruct (Z.leb_spec ((now + tzOffset) / 86400000 * 86400000 + 0 - tzOffset) t);
    destruct (Z.leb_spec t
                ((now + tzOffset) / 86400000 * 86400000 + (86400000 - 1)
                 - tzOffset));
    destruct (Z.eqb_spec ((t + tzOffset) / 86400000 * 86400000 + 0 - tzOffset)
                ((now + tzOffset) / 86400000 * 86400000 + 0 - tzOffset));
    cbn [andb]; try reflexivity; exfalso; Z.div_mod_to_equations; lia.
Qed.

(** X13. The day panel lists exactly the classes that start on the local
    day of now and exactly the other activities due on that day, each list
    in ascending order of that instant; no row is in both lists. *)
Theorem dayPanel_today (tzOffset : Z) (store : Store) (now : Z) :
  Permutation (classes (dayPanel tzOffset store now))
    (filter (fun a => isClass a && onDayOf tzOffset now (startAt a)) store) /\
  Permutation (activities (dayPanel tzOffset store now))
    (filter (fun a => negb (isClass a) && onDayOf tzOffset now (dueAt a)) store) /\
  StronglySorted (ascendingBy startAt) (classes (dayPanel tzOffset store now)) /\
  StronglySorted (ascendingBy dueAt) (activities (dayPanel tzOffset store now)) /\
  (forall a, In a (classes (dayPanel tzOffset store now)) ->
             ~ In a (activities (dayPanel tzOffset store now))).
Proof.
  unfold dayPanel. cbv zeta. cbn [classes activities].
  assert (Hc : Permutation
            (arraySort (fun a b => compareNullsFirst (startAt a) (startAt b))
               (filter (fun a => (type a =? "clase")%string &&
                  withinRange (startOfDay tzOffset now) (endOfDay tzOffset now)
                    (startAt a)) store))
            (filter (fun a => isClass a && onDayOf tzOffset now (startAt a))
               store)).
  { eapply perm_trans; [apply arraySort_perm | ].
    rewrite (filter_ext _ (fun a => isClass a && onDayOf tzOffset now (startAt a)));
      [apply Permutation_refl | ].
    intros a. rewrite withinRange_day. reflexivity. }
  assert (Hd : Permutation
            (arraySort (fun a b => compareNullsFirst (dueAt a) (dueAt b))
               (filter (fun a => negb (type a =? "clase")%string &&
                  withinRange (startOfDay tzOffset now) (endOfDay tzOffset now)
                    (dueAt a)) store))
            (filter (fun a => negb (isClass a) && onDayOf tzOffset now (dueAt a))
               store)).
  { eapply perm_trans; [apply arraySort_perm | ].
    rewrite (filter_ext _
               (fun a => negb (isClass a) && onDayOf tzOffset now (dueAt a)));
      [apply Permutation_refl | ].
    intros a. rewrite withinRange_day. reflexivity. }
  split; [exact Hc | split; [exact Hd | split; [| split]]].
  - apply orderBy_sorted.
  - apply orderBy_sorted.
  - intros a Hin Hin'.
    apply (Permutation_in _ Hc) in Hin. apply (Permutation_in _ Hd) in Hin'.
    apply filter_In in Hin. apply filter_In in Hin'.
    destruct Hin as [_ Hin]. destruct Hin' as [_ Hin'].
    destruct (isClass a); cbn [negb andb] in *; discriminate.
Qed.

Lemma dayPanel_today_witness :
  map id (classes (dayPanel 0 [examPending; classAtTwo; deliveryRow] 0))
  = ["c2"]%string /\
  map id (activities (dayPanel 0 [examPending; classAtTwo; deliveryRow] 0))
  = ["e1"]%string /\
  ~ In classAtTwo (activities (dayPanel 0 [examPending; classAtTwo; deliveryRow] 0)).
Proof.
  split; [reflexivity | split; [reflexivity | ]].
  apply (proj2 (proj2 (proj2 (proj2
           (dayPanel_today 0 [examPending; classAtTwo; deliveryRow] 0))))).
  left. reflexivity.
Defined.

Lemma equalsIfSet_truthyParam (p : option string) (v : string) :
  equalsIfSet (truthyParam p) v = paramAllows p v.
Proof.
  unfold equalsIfSet, truthyParam, paramAllows, truthyString.
  destruct p as [s|]; [| reflexivity].
  destruct (s =? "")%string; reflexivity.
Qed.

Lemma enumAccepts_truthyParam (values : list string) (p : option string) :
  enumAccepts values (truthyParam p) = true <-> paramInEnum values p.
Proof.
  unfold enumAccepts, truthyParam, paramInEnum, truthyString.
  destruct p as [s|]; [| tauto].
  destruct (String.eqb_spec s "") as [-> | Hne]; cbn [negb].
  - split; [intros _; left; reflexivity | reflexivity].
  - rewrite existsb_exists. split.
    + intros [v [Hin Heq]]. apply String.eqb_eq in Heq. subst v.
      right. exact Hin.
    + intros [Hempty | Hin]; [contradiction | ].
      exists s. split; [exact Hin | apply String.eqb_refl].
Qed.

(** X14. When the type parameter is absent, empty or an activity type, and
    the status parameter is absent, empty or a status, the listing answers
    every stored row that agrees with each non-empty parameter given
    (subject, type, status), once each, classes included; an absent or
    empty parameter constrains nothing. For any other type or status
    parameter no list is answered. *)
Theorem listActivities_members (store : Store)
    (subjectIdParam typeParam statusParam : option string) :
  (paramInEnum activityTypes typeParam ->
   paramInEnum activityStatuses statusParam ->
   exists rows,
     listActivities store subjectIdParam typeParam statusParam = Some rows /\
     Permutation rows
       (filter (fun a => paramAllows subjectIdParam (subjectId a) &&
                         paramAllows typeParam (type a) &&
                         paramAllows statusParam (status a)) store)) /\
  (~ paramInEnum activityTypes typeParam \/
   ~ paramInEnum activityStatuses statusParam ->
   listActivities store subjectIdParam typeParam statusParam = None).
Proof.
  assert (Hunfold :
    listActivities store subjectIdParam typeParam statusParam =
    if enumAccepts activityTypes (truthyParam typeParam) &&
       enumAccepts activityStatuses (truthyParam statusParam)
    then Some (arraySort listCompare
                 (filter (matchesListWhere
                            (listWhere subjectIdParam typeParam statusParam))
                    store))
    else None) by reflexivity.
  rewrite Hunfold. clear Hunfold.
  pose proof (enumAccepts_truthyParam activityTypes typeParam) as Hty.
  pose proof (enumAccepts_truthyParam activityStatuses statusParam) as Hst.
  split.
  - intros Htype Hstatus.
    rewrite (proj2 Hty Htype), (proj2 Hst Hstatus). cbn [andb].
    eexists. split; [reflexivity | ].
    eapply perm_trans; [apply arraySort_perm | ].
    rewrite (filter_ext _ (fun a => paramAllows subjectIdParam (subjectId a) &&
                                    paramAllows typeParam (type a) &&
                                    paramAllows statusParam (status a)));
      [apply Permutation_refl | ].
    intros a. unfold matchesListWhere, listWhere.
    cbn [listSubjectId listType listStatus].
    rewrite !equalsIfSet_truthyParam. reflexivity.
  - intros Hbad.
    destruct (enumAccepts activityTypes (truthyParam typeParam)) eqn:Et;
      destruct (enumAccepts activityStatuses (truthyParam statusParam)) eqn:Es;
      cbn [andb]; try reflexivity.
    exfalso. destruct Hbad as [Hbad | Hbad]; apply Hbad.
    + apply Hty. reflexivity.
    + apply Hst. reflexivity.
Qed.

Lemma listActivities_members_witness :
  (exists rows,
     listActivities [examPending; classRow; examCompleted] None
       (Some "examen"%string) (Some ""%string) = Some rows /\
     Permutation rows [examPending; examCompleted]) /\
  listActivities [examPending; classRow; examCompleted] None
    (Some "quiz"%string) None = None.
Proof.
  split.
  - apply (proj1 (listActivities_members [examPending; classRow; examCompleted]
                    None (Some "examen"%string) (Some ""%string))).
    + right. cbn. tauto.
    + left. reflexivity.
  - apply (proj2 (listActivities_members [examPending; classRow; examCompleted]
                    None (Some "quiz"%string) None)).
    left. intros [Hempty | Hin]; [discriminate | ].
    cbn in Hin. repeat (destruct Hin as [Hin | Hin]; [discriminate | ]).
    exact Hin.
Defined.

(** ** The toggle seen through the scoring engine *)

Lemma toggleCompleted_row (store : Store) (i : string) (now : Z) (a : Activity) :
  findUnique store i = Some a ->
  exists a1,
    findUnique (fst (toggleCompleted store i now)) i = Some a1 /\
    type a1 = type a /\ dueAt a1 = dueAt a /\
    priority a1 = priority a /\ manualPriority a1 = manualPriority a /\
    status a1 = if (status a =? "completed")%string
                then "pending"%string else "completed"%string.
Proof.
  intros Hfind.
  pose proof (findUnique_id store i a Hfind) as Hid.
  unfold toggleCompleted. rewrite Hfind. cbv zeta. cbn [fst].
  eexists. split.
  - apply (findUnique_updateRow store i a); [exact Hfind | exact Hid].
  - cbn [applyData type dueAt priority manualPriority status].
    repeat (split; [reflexivity | ]).
    destruct (status a =? "completed")%string; reflexivity.
Qed.

(** X16. A toggle never changes the color of an automatically scored
    activity, and it moves its score by the difference of the status
    adjustments: down by 120 when it was pending, down by 110 when it was
    in_progress, up by 120 when it was completed. The shift is stated with
    a margin of 1 on either side, which the rounding of the code's
    floating-point sums stays well within. *)
Theorem toggle_shifts_score (store : Store) (i : string) (t nowUtc : Z)
    (a : Activity) :
  findUnique store i = Some a ->
  manualHonored a = false ->
  exists a1,
    findUnique (fst (toggleCompleted store i t)) i = Some a1 /\
    color (rankActivity a1 nowUtc) = color (rankActivity a nowUtc) /\
    (status a = "pending"%string ->
       (score (rankActivity a nowUtc) - 121 < score (rankActivity a1 nowUtc)
        /\ score (rankActivity a1 nowUtc) < score (rankActivity a nowUtc) - 119)%Q) /\
    (status a = "in_progress"%string ->
       (score (rankActivity a nowUtc) - 111 < score (rankActivity a1 nowUtc)
        /\ score (rankActivity a1 nowUtc) < score (rankActivity a nowUtc) - 109)%Q) /\
    (status a = "completed"%string ->
       (score (rankActivity a nowUtc) + 119 < score (rankActivity a1 nowUtc)
        /\ score (rankActivity a1 nowUtc) < score (rankActivity a nowUtc) + 121)%Q).
Proof.
  intros Hfind Hauto.
  destruct (toggleCompleted_row store i t a Hfind)
    as [a1 [Hf1 [Hty [Hdue [Hpr [Hmp Hst]]]]]].
  exists a1. split; [exact Hf1 | ].
  assert (Hauto1 : manualHonored a1 = false).
  { unfold manualHonored in *. rewrite Hpr, Hmp. exact Hauto. }
  assert (Hrem : hoursRemainingOf a1 nowUtc = hoursRemainingOf a nowUtc)
    by (apply hoursRemainingOf_same_due; exact Hdue).
  assert (Hcol : forall x, color (rankActivity x nowUtc)
                           = computeColorByDue (hoursRemainingOf x nowUtc)).
  { intros x. unfold rankActivity.
    destruct (priority x =? "manual")%string; destruct (manualPriority x);
      reflexivity. }
  split; [rewrite !Hcol, Hrem; reflexivity | ].
  destruct (rankActivity_auto a nowUtc Hauto) as [-> _].
  destruct (rankActivity_auto a1 nowUtc Hauto1) as [-> _].
  rewrite !autoScoreOf_unfold, Hrem, Hty, Hst.
  split; [| split]; intros Hs; rewrite Hs; cbn [String.eqb Ascii.eqb Bool.eqb];
    [change (computeStateAdjust "completed") with (-100)%Q;
     change (computeStateAdjust "pending") with 20%Q
    |change (computeStateAdjust "completed") with (-100)%Q;
     change (computeStateAdjust "in_progress") with 10%Q
    |change (computeStateAdjust "completed") with (-100)%Q;
     change (computeStateAdjust "pending") with 20%Q]; split; lra.
Qed.

Lemma toggle_shifts_score_witness :
  exists a1,
    findUnique (fst (toggleCompleted [examInThreeHours] "e4" 7)) "e4" = Some a1 /\
    (score (rankActivity a1 0) < score (rankActivity examInThreeHours 0) - 119)%Q.
Proof.
  destruct (toggle_shifts_score [examInThreeHours] "e4"%string 7 0
              examInThreeHours eq_refl eq_refl) as [a1 [Hf [_ [Hp _]]]].
  exists a1. split; [exact Hf | exact (proj2 (Hp eq_refl))].
Defined.
